(** * Power-Forecasting: the data preparation notebook

    A shallow embedding of [1_Data_Preparation.ipynb]: the function
    [preProcess] (read the turbine csv, zero-fill, unstack the zone level,
    rolling means, calendar columns) and the cells that rename the
    hierarchical columns before a frame is written in Feather format.

    Conventions.
    - The csv file is taken as [pd.read_csv] delivers it: records with the
      columns the docstring of [preProcess] lists, the timestamp parsed.
    - A pandas column label is a [label]: a pair (name, zone level) or,
      once flattened, a plain string.  A frame is the list of its columns,
      in order, each with its label and its cells.
    - A stored floating point value is read as the rational it denotes
      ([Q]); a missing value (NaN) is the cell [NaN].  The arithmetic of
      the rolling mean is carried out exactly: the rounding and the overflow
      of a running sum of doubles are not part of the embedding, and no
      theorem below rests on the numeric value of a mean (the one example
      that shows means has sums and quotients that doubles hold exactly).
    - A numeric ID is read as the integer it denotes; pandas holds it as a
      double once the column has a missing value, which is the same number
      up to 2^53 in absolute value ([id_exact]).
    - Python exceptions are values of [exn]; the lines written by [print]
      are collected next to the outcome of a run. *)

From Stdlib Require Import List ZArith QArith Lia Bool Ascii String.
From Stdlib Require Import DecimalString DecimalZ Sorted Eqdep_dec Permutation.
Import ListNotations.

Local Open Scope string_scope.
Local Open Scope list_scope.
Local Open Scope Z_scope.

(* ================================================================= *)
(** ** Python values *)

(** [str(n)] for a Python int. *)
Definition str (n : Z) : string := NilZero.string_of_int (Z.to_int n).

Module Datetime.

(** [_is_leap], [_DAYS_IN_MONTH], [_days_before_month],
    [_days_before_year] of Python's datetime module. *)
Definition is_leap (y : Z) : bool :=
  (y mod 4 =? 0) && (negb (y mod 100 =? 0) || (y mod 400 =? 0)).

Definition DAYS_IN_MONTH : list Z :=
  [31; 28; 31; 30; 31; 30; 31; 31; 30; 31; 30; 31].

Definition days_in_month (y m : Z) : Z :=
  if (m =? 2) && is_leap y then 29
  else nth (Z.to_nat (m - 1)) DAYS_IN_MONTH 0.

Definition DAYS_BEFORE_MONTH : list Z :=
  [0; 31; 59; 90; 120; 151; 181; 212; 243; 273; 304; 334].

Definition days_before_month (y m : Z) : Z :=
  nth (Z.to_nat (m - 1)) DAYS_BEFORE_MONTH 0
  + (if (2 <? m) && is_leap y then 1 else 0).

Definition days_before_year (y : Z) : Z :=
  let y1 := y - 1 in y1 * 365 + y1 / 4 - y1 / 100 + y1 / 400.

(** The range check of the datetime constructor. *)
Definition check_fields (y m d h mi : Z) : bool :=
  (1 <=? y) && (y <=? 9999) && (1 <=? m) && (m <=? 12)
  && (1 <=? d) && (d <=? days_in_month y m)
  && (0 <=? h) && (h <=? 23) && (0 <=? mi) && (mi <=? 59).

(** A timestamp parsed from "YYYYMMDD h:mm": a value that passed the
    range check. *)
Record t : Type := make {
  year : Z; month : Z; day : Z; hour : Z; minute : Z;
  checked : check_fields year month day hour minute = true
}.

Definition fields (x : t) : list Z :=
  [year x; month x; day x; hour x; minute x].

(** [x.timetuple().tm_yday] *)
Definition tm_yday (x : t) : Z := days_before_month (year x) (month x) + day x.

(** [x.toordinal()] and the number of minutes it stands for, used for the
    difference of two timestamps. *)
Definition toordinal (x : t) : Z :=
  days_before_year (year x) + days_before_month (year x) (month x) + day x.

Definition minutes (x : t) : Z := (toordinal x * 24 + hour x) * 60 + minute x.

(** Timestamps are ordered as their fields are, most significant first. *)
Fixpoint lex (a b : list Z) : comparison :=
  match a, b with
  | [], [] => Eq
  | [], _ :: _ => Lt
  | _ :: _, [] => Gt
  | x :: a', y :: b' =>
      match x ?= y with
      | Eq => lex a' b'
      | c => c
      end
  end.

Definition compare (x y : t) : comparison := lex (fields x) (fields y).

Definition eqb (x y : t) : bool :=
  match compare x y with Eq => true | _ => false end.

End Datetime.

Definition datetime : Type := Datetime.t.

(** What a data frame cell can hold. *)
Inductive cell : Type :=
| NaN
| Num (q : Q)
| Str (s : string)
| Time (x : datetime).

(** The second level of a column label: a zone id, or the empty string that
    pandas puts there for a column without one. *)
Inductive level : Type :=
| Zone (z : Z)
| Blank.

(** [df.columns.values] holds tuples for hierarchical columns and plain
    strings once the columns were renamed. *)
Inductive label : Type :=
| Tup (name : string) (lv : level)
| Flat (s : string).

Definition level_eqb (a b : level) : bool :=
  match a, b with
  | Zone x, Zone y => x =? y
  | Blank, Blank => true
  | _, _ => false
  end.

Definition label_eqb (a b : label) : bool :=
  match a, b with
  | Tup n l, Tup n' l' => String.eqb n n' && level_eqb l l'
  | Flat s, Flat s' => String.eqb s s'
  | _, _ => false
  end.

(** The exceptions the notebook can run into. *)
Inductive exn : Type :=
| KeyError (k : label)
| ValueError (msg : string)
| TypeError
| AttributeError
| IndexError.

Inductive result (A : Type) : Type :=
| Ok (a : A)
| Raise (e : exn).
Arguments Ok {A} a.
Arguments Raise {A} e.

(* ================================================================= *)
(** ** Printing and raising *)

(** A computation returns the lines it printed and its outcome. *)
Definition M (A : Type) : Type := (list string * result A)%type.

Definition ret {A} (a : A) : M A := ([], Ok a).

Definition bind {A B} (m : M A) (f : A -> M B) : M B :=
  match m with
  | (out, Ok a) => let (out', r) := f a in (out ++ out', r)
  | (out, Raise e) => (out, Raise e)
  end.

Definition print (s : string) : M unit := ([s], Ok tt).

Definition lift {A} (r : result A) : M A := ([], r).

Notation "x <- c1 ;; c2" := (bind c1 (fun x => c2))
  (at level 61, c1 at next level, right associativity).
Notation "c1 ;; c2" := (bind c1 (fun _ => c2))
  (at level 61, right associativity).

Definition printed {A} (m : M A) : list string := fst m.
Definition outcome {A} (m : M A) : result A := snd m.

Fixpoint foldM {A B} (f : A -> B -> M A) (l : list B) (a : A) : M A :=
  match l with
  | [] => ret a
  | b :: l' => a' <- f a b ;; foldM f l' a'
  end.

Fixpoint mapR {A B} (f : A -> result B) (l : list A) : result (list B) :=
  match l with
  | [] => Ok []
  | a :: l' =>
      match f a with
      | Raise e => Raise e
      | Ok b => match mapR f l' with
                | Raise e => Raise e
                | Ok bs => Ok (b :: bs)
                end
      end
  end.

(* ================================================================= *)
(** ** The csv file and the frames built from it *)

(** One record of the csv file, as the docstring of [preProcess] gives it:
    ID, ZONEID, TIMESTAMP, TARGETVAR, U10, V10, U100, V100.  A blank field is
    [None]; the ID is a number or a text. *)
Record RawObservation : Type := {
  ID : option (Z + string);
  ZONEID : Z;
  TIMESTAMP : datetime;
  TARGETVAR : option Q;
  U10 : option Q;
  V10 : option Q;
  U100 : option Q;
  V100 : option Q
}.

(** The file: its records, and whether it has the TARGETVAR column (the
    testing data set has none). *)
Record csv : Type := {
  has_TARGETVAR : bool;
  records : list RawObservation
}.

Definition float_cell (o : option Q) : cell :=
  match o with
  | Some q => Num q
  | None => NaN
  end.

Definition id_cell (o : option (Z + string)) : cell :=
  match o with
  | Some (inl n) => Num (inject_Z n)
  | Some (inr s) => Str s
  | None => NaN
  end.

Definition field (r : RawObservation) (c : string) : cell :=
  if String.eqb c "ID" then id_cell (ID r)
  else if String.eqb c "TARGETVAR" then float_cell (TARGETVAR r)
  else if String.eqb c "U10" then float_cell (U10 r)
  else if String.eqb c "V10" then float_cell (V10 r)
  else if String.eqb c "U100" then float_cell (U100 r)
  else if String.eqb c "V100" then float_cell (V100 r)
  else NaN.

(** A row of [df0]: the two index levels and the data cells by column. *)
Record row0 : Type := {
  stamp : datetime;
  zone : Z;
  at_column : string -> cell
}.

(** [df0]: indexed by (TIMESTAMP, ZONEID), the other fields as columns. *)
Record frame0 : Type := {
  columns0 : list string;
  rows0 : list row0
}.

(** [pd.read_csv(fname, header=0, parse_dates=[2], index_col=[2,1])] *)
Definition read_csv (f : csv) : frame0 :=
  {| columns0 := if has_TARGETVAR f
                 then ["ID"; "TARGETVAR"; "U10"; "V10"; "U100"; "V100"]
                 else ["ID"; "U10"; "V10"; "U100"; "V100"];
     rows0 := map (fun r => {| stamp := TIMESTAMP r; zone := ZONEID r;
                               at_column := field r |}) (records f) |}.

(** [df0.fillna(0, inplace=True)]: every data column, whatever it holds. *)
Definition fill0 (c : cell) : cell :=
  match c with
  | NaN => Num 0
  | _ => c
  end.

Definition fillna0 (df : frame0) : frame0 :=
  {| columns0 := columns0 df;
     rows0 := map (fun r => {| stamp := stamp r; zone := zone r;
                               at_column := fun c => fill0 (at_column r c) |})
                  (rows0 df) |}.

(** [df0.drop(name, 1)] *)
Definition drop0 (name : string) (df : frame0) : result frame0 :=
  if existsb (String.eqb name) (columns0 df)
  then Ok {| columns0 := filter (fun c => negb (String.eqb name c)) (columns0 df);
             rows0 := rows0 df |}
  else Raise (KeyError (Flat name)).

(** A frame with a plain row index 0..n-1: its columns in order, each with
    its label and its cells. *)
Definition frame : Type := list (label * list cell).

(** [df1]: indexed by the timestamp alone. *)
Record frame1 : Type := {
  index1 : list datetime;
  columns1 : frame
}.

(** The sorted distinct values of an index level. *)
Section Levels.
Context {A : Type} (cmp : A -> A -> comparison).

Fixpoint insert (x : A) (l : list A) : list A :=
  match l with
  | [] => [x]
  | y :: l' =>
      match cmp x y with
      | Lt => x :: l
      | Eq => l
      | Gt => y :: insert x l'
      end
  end.

Definition levels (l : list A) : list A := fold_right insert [] l.

(** The order the levels come in. *)
Definition before (x y : A) : Prop := cmp x y = Lt.
End Levels.

Definition timepoints (df : frame0) : list datetime :=
  levels Datetime.compare (map stamp (rows0 df)).

Definition zone_ids (df : frame0) : list Z :=
  levels Z.compare (map zone (rows0 df)).

Definition same_key (t : datetime) (z : Z) (r : row0) : bool :=
  Datetime.eqb t (stamp r) && (z =? zone r).

Fixpoint has_duplicates (rs : list row0) : bool :=
  match rs with
  | [] => false
  | r :: rs' => existsb (same_key (stamp r) (zone r)) rs' || has_duplicates rs'
  end.

(** The cell of column [c] at (t, z); NaN when the file has no such
    record. *)
Definition cell_at (df : frame0) (c : string) (t : datetime) (z : Z) : cell :=
  match find (same_key t z) (rows0 df) with
  | Some r => at_column r c
  | None => NaN
  end.

(** [df0.unstack()]: the zone level moves into the columns; pandas refuses
    an index with a repeated (timestamp, zone) entry. *)
Definition unstack (df : frame0) : result frame1 :=
  if has_duplicates (rows0 df)
  then Raise (ValueError "Index contains duplicate entries, cannot reshape")
  else Ok {| index1 := timepoints df;
             columns1 :=
               flat_map (fun c =>
                 map (fun z => (Tup c (Zone z),
                                map (fun t => cell_at df c t z) (timepoints df)))
                     (zone_ids df))
                 (columns0 df) |}.

(** [df1.reset_index()]: the index comes back as the first column. *)
Definition reset_index (df : frame1) : frame :=
  (Tup "TIMESTAMP" Blank, map Time (index1 df)) :: columns1 df.

(** [len(df)] *)
Definition len (df : frame) : nat :=
  match df with
  | [] => 0%nat
  | (_, col) :: _ => List.length col
  end.

Fixpoint column (k : label) (df : frame) : option (list cell) :=
  match df with
  | [] => None
  | (k', col) :: df' => if label_eqb k k' then Some col else column k df'
  end.

(** [df[k]] *)
Definition getitem (k : label) (df : frame) : result (list cell) :=
  match column k df with
  | Some col => Ok col
  | None => Raise (KeyError k)
  end.

(** [df[k] = col]: in place when the column exists, else appended. *)
Fixpoint setitem (k : label) (col : list cell) (df : frame) : frame :=
  match df with
  | [] => [(k, col)]
  | (k', col') :: df' =>
      if label_eqb k k' then (k, col) :: df' else (k', col') :: setitem k col df'
  end.

(** [df.drop(ks, axis=1)] *)
Definition drop_labels (ks : list label) (df : frame) : result frame :=
  match find (fun k => match column k df with None => true | Some _ => false end) ks with
  | Some k => Raise (KeyError k)
  | None => Ok (filter (fun kc => negb (existsb (label_eqb (fst kc)) ks)) df)
  end.

Definition top_name (k : label) : string :=
  match k with
  | Tup name _ => name
  | Flat s => s
  end.

(** [df.drop(name, axis=1, level=0)] *)
Definition drop_level0 (name : string) (df : frame) : result frame :=
  if existsb (fun kc => String.eqb name (top_name (fst kc))) df
  then Ok (filter (fun kc => negb (String.eqb name (top_name (fst kc)))) df)
  else Raise (KeyError (Flat name)).

(** [s.subtract(s.shift(+1))] on a column of timestamps, in minutes; the
    first entry has no predecessor. *)
Fixpoint deltas (prev : option datetime) (ts : list datetime) : list (option Z) :=
  match ts with
  | [] => []
  | x :: ts' =>
      match prev with
      | None => None
      | Some p => Some (Datetime.minutes x - Datetime.minutes p)
      end :: deltas (Some x) ts'
  end.

(** [s.map(lambda x: f(x))] for an attribute of a timestamp. *)
Definition map_attr (f : datetime -> Z) (col : list cell) : result (list cell) :=
  mapR (fun c => match c with
                 | Time x => Ok (Num (inject_Z (f x)))
                 | _ => Raise AttributeError
                 end) col.

(* ================================================================= *)
(** ** Rolling means *)

(** The rolling window works on a float column: numbers and NaN. *)
Definition as_float (c : cell) : result (option Q) :=
  match c with
  | NaN => Ok None
  | Num q => Ok (Some q)
  | _ => Raise TypeError
  end.

Definition observed (w : list (option Q)) : list Q :=
  flat_map (fun o => match o with Some q => [q] | None => [] end) w.

Definition total (l : list Q) : Q := fold_right Qplus 0%Q l.

(** The mean of the observations of a window; NaN when it holds fewer than
    [min_periods] of them.  The sum and the quotient are exact. *)
Definition window_mean (min_periods : nat) (w : list (option Q)) : cell :=
  let obs := observed w in
  if (min_periods <=? List.length obs)%nat
  then Num (total obs / inject_Z (Z.of_nat (List.length obs)))
  else NaN.

Definition keep_last {A} (n : nat) (l : list A) : list A :=
  skipn (List.length l - n) l.

(** The window slides over the column: each value enters it, and the oldest
    one leaves once [n] values are held. *)
Fixpoint roll (n min_periods : nat) (held xs : list (option Q)) : list cell :=
  match xs with
  | [] => []
  | x :: xs' =>
      let w := keep_last n (held ++ [x]) in
      window_mean min_periods w :: roll n min_periods w xs'
  end.

(** [s.rolling(window, min_periods=min_periods).mean()].  A window beyond
    the 64-bit range, which pandas refuses, is not told apart. *)
Definition rolling_mean (window : Z) (min_periods : nat) (s : list cell)
  : result (list cell) :=
  if window <? 0 then Raise (ValueError "window must be >= 0")
  else match mapR as_float s with
       | Raise e => Raise e
       | Ok xs => Ok (roll (Z.to_nat window) min_periods [] xs)
       end.

(* ================================================================= *)
(** ** preProcess *)

(** [range(a, b)] *)
Definition range (a b : Z) : list Z :=
  map (fun k => a + Z.of_nat k) (seq 0 (Z.to_nat (b - a))).

Definition nturbines : Z := 10.
Definition wind_measurements : list Z := [1; 2; 3; 4; 5; 6; 7; 8; 9; 10].

(** [df2[(name+dname,i)] = df2[(name,i)].rolling(Nroll, min_periods=1).mean()] *)
Definition add_rolling (Nroll : Z) (dname name : string) (i : Z) (df2 : frame)
  : M frame :=
  s <- lift (getitem (Tup name (Zone i)) df2) ;;
  m <- lift (rolling_mean Nroll 1 s) ;;
  ret (setitem (Tup (name ++ dname)%string (Zone i)) m df2).

(** [df2[name] = df2["TIMESTAMP"].map(lambda x: f(x))] *)
Definition add_calendar (name : string) (f : datetime -> Z) (df2 : frame)
  : M frame :=
  s <- lift (getitem (Tup "TIMESTAMP" Blank) df2) ;;
  v <- lift (map_attr f s) ;;
  ret (setitem (Tup name Blank) v df2).

Definition preProcess (fname : csv) (Nroll : Z) (keepID : bool) : M frame :=
  let df0 := fillna0 (read_csv fname) in
  df0 <- (if negb keepID
          then df0 <- lift (drop0 "ID" df0) ;;
               print "ID column dropped" ;;
               ret df0
          else print "ID column kept" ;;
               ret df0) ;;
  df1 <- lift (unstack df0) ;;
  print "unstacked" ;;
  let df2 := reset_index df1 in
  let dtimes := deltas None (index1 df1) in
  let Ntimepoints := len df2 in
  df2 <- foldM (fun df2 i =>
                  if negb (existsb (Z.eqb i) wind_measurements)
                  then lift (drop_labels [Tup "U10" (Zone i); Tup "V10" (Zone i);
                                          Tup "U100" (Zone i); Tup "V100" (Zone i)] df2)
                  else ret df2)
               (range 1 (nturbines + 1)) df2 ;;
  df2 <- (if Nroll >? 1
          then print ("Computing rolling means over " ++ str Nroll ++ " measurements")%string ;;
               let dname := ("_rm" ++ str Nroll)%string in
               foldM (fun df2 i =>
                        df2 <- add_rolling Nroll dname "U10" i df2 ;;
                        df2 <- add_rolling Nroll dname "U100" i df2 ;;
                        df2 <- add_rolling Nroll dname "V10" i df2 ;;
                        add_rolling Nroll dname "V100" i df2)
                     wind_measurements df2
          else print "No rolling means computed" ;;
               ret df2) ;;
  df2 <- add_calendar "YEAR" Datetime.year df2 ;;
  df2 <- add_calendar "DAYOFYEAR" Datetime.tm_yday df2 ;;
  df2 <- add_calendar "HOUR" Datetime.hour df2 ;;
  lift (drop_level0 "TIMESTAMP" df2).

(* ================================================================= *)
(** ** Renaming the columns for Feather *)

Definition bindR {A B} (r : result A) (f : A -> result B) : result B :=
  match r with
  | Ok a => f a
  | Raise e => Raise e
  end.

(** [item[0]]: the name of a tuple, the first character of a string. *)
Definition item0 (it : label) : result string :=
  match it with
  | Tup name _ => Ok name
  | Flat (String a _) => Ok (String a "")
  | Flat "" => Raise IndexError
  end.

(** [str(item[1])] *)
Definition str_item1 (it : label) : result string :=
  match it with
  | Tup _ (Zone z) => Ok (str z)
  | Tup _ Blank => Ok ""
  | Flat (String _ (String b _)) => Ok (String b "")
  | Flat _ => Raise IndexError
  end.

(** [[item[0]+'_'+str(item[1]) for item in items if cond(item[0])]] *)
Fixpoint joined (cond : string -> bool) (items : list label) : result (list string) :=
  match items with
  | [] => Ok []
  | item :: items' =>
      bindR (item0 item) (fun a =>
        if cond a
        then bindR (str_item1 item) (fun b =>
               bindR (joined cond items') (fun rest =>
                 Ok ((a ++ "_" ++ b)%string :: rest)))
        else joined cond items')
  end.

Fixpoint last_char (s : string) : option ascii :=
  match s with
  | "" => None
  | String a "" => Some a
  | String _ s' => last_char s'
  end.

Fixpoint but_last (s : string) : string :=
  match s with
  | "" => ""
  | String a "" => ""
  | String a s' => String a (but_last s')
  end.

(** [p if p[-1]!='_' else p[:-1]] *)
Definition strip_sep (p : string) : result string :=
  match last_char p with
  | None => Raise IndexError
  | Some a => if Ascii.eqb a "_" then Ok (but_last p) else Ok p
  end.

(** The training cell: targets first, then the predictors. *)
Definition rename_train (columns : list label) : result (list string) :=
  bindR (joined (fun n => negb (String.eqb n "TARGETVAR")) columns) (fun predictors =>
  bindR (mapR strip_sep predictors) (fun predictors =>
  bindR (joined (fun n => String.eqb n "TARGETVAR") columns) (fun targets =>
  Ok (targets ++ predictors)))).

(** The testing and the solution cells: no column is set apart. *)
Definition rename_test (columns : list label) : result (list string) :=
  bindR (joined (fun _ => true) columns) (fun predictors =>
  mapR strip_sep predictors).

(** [df.columns = names] *)
Definition set_columns (names : list string) (df : frame) : result frame :=
  if (List.length names =? List.length df)%nat
  then Ok (map (fun p => (Flat (fst p), snd (snd p))) (combine names df))
  else Raise (ValueError "Length mismatch").

Definition flatten_train (df : frame) : result frame :=
  bindR (rename_train (map fst df)) (fun names => set_columns names df).

Definition flatten_test (df : frame) : result frame :=
  bindR (rename_test (map fst df)) (fun names => set_columns names df).

(* ================================================================= *)
(** ** The cells that write Feather files *)

(** [try: body except: handler], for a bare [except]: whatever [body]
    raises is caught, what it printed before stays printed. *)
Definition try_except {A} (body handler : M A) : M A :=
  match body with
  | (out, Ok a) => (out, Ok a)
  | (out, Raise _) => let (out', r) := handler in (out ++ out', r)
  end.

(** The line feed of a Python string literal. *)
Definition newline : string := String "010"%char "".

Section Cells.
(** What lies outside the notebook: the value of
    [strftime("%Y_%m_%d_%H_%M_%S")] when the cell runs, the text of
    [df.head()], and the writers of the pickle and Feather files, which
    return or raise. *)
Variable now : string.
Variable head : frame -> string.
Variable to_pickle : frame -> string -> result unit.
Variable write_dataframe : frame -> string -> result unit.

(** "Preprocess the training data set in Feather format". *)
Definition cell_train_feather (train_csv : csv) : M unit :=
  train_df <- preProcess train_csv 3 false ;;
  predictors <- lift (joined (fun n => negb (String.eqb n "TARGETVAR")) (map fst train_df)) ;;
  predictors <- lift (mapR strip_sep predictors) ;;
  targets <- lift (joined (fun n => String.eqb n "TARGETVAR") (map fst train_df)) ;;
  train_df <- lift (set_columns (targets ++ predictors) train_df) ;;
  print (newline ++ "Dataframe train_df:" ++ newline ++ head train_df)%string ;;
  let train_fname := ("data/Train_pp_" ++ now ++ ".feather")%string in
  try_except
    (lift (write_dataframe train_df train_fname) ;;
     print (newline ++ "Training data frame saved to " ++ train_fname)%string)
    (print (newline ++ "Error saving training data frame to " ++ train_fname)%string).

(** "Preprocess the testing data set in Feather format". *)
Definition cell_test_feather (test_csv : csv) : M unit :=
  test_df <- preProcess test_csv 3 true ;;
  predictors <- lift (joined (fun _ => true) (map fst test_df)) ;;
  predictors <- lift (mapR strip_sep predictors) ;;
  test_df <- lift (set_columns predictors test_df) ;;
  print (newline ++ "Dataframe test_df:" ++ newline ++ head test_df)%string ;;
  let test_fname := ("data/Test_pp_" ++ now ++ ".feather")%string in
  try_except
    (lift (write_dataframe test_df test_fname) ;;
     print (newline ++ "Testing data frame saved to " ++ test_fname)%string)
    (print (newline ++ "Error saving testing data frame to " ++ test_fname)%string).

(** "Preprocess the solution file": a pickle of the hierarchical frame, then
    a Feather file of the renamed one, under one time stamp. *)
Definition cell_solution (solution_csv : csv) : M unit :=
  solution_df <- preProcess solution_csv 3 false ;;
  print (newline ++ "Dataframe solution_df for pickle:" ++ newline ++ head solution_df)%string ;;
  let fname := now in
  let solution_fname := ("data/Solution_pp_" ++ fname ++ ".pkl")%string in
  try_except
    (lift (to_pickle solution_df solution_fname) ;;
     print (newline ++ "Solution data frame saved to " ++ solution_fname)%string)
    (print (newline ++ "Error saving solution data frame to " ++ solution_fname)%string) ;;
  fields <- lift (joined (fun _ => true) (map fst solution_df)) ;;
  fields <- lift (mapR strip_sep fields) ;;
  solution_df <- lift (set_columns fields solution_df) ;;
  print (newline ++ "Dataframe solution_df for feather:" ++ newline ++ head solution_df)%string ;;
  let solution_fname := ("data/Solution_pp_" ++ fname ++ ".feather")%string in
  try_except
    (lift (write_dataframe solution_df solution_fname) ;;
     print (newline ++ "Solution data frame saved to " ++ solution_fname)%string)
    (print (newline ++ "Error saving solution data frame to " ++ solution_fname)%string).
End Cells.

(* ================================================================= *)
(** ** Vocabulary of the statements *)

Definition wind_quantities : list string := ["U10"; "V10"; "U100"; "V100"].

(** The number a float cell holds, if any. *)
Definition float_of (c : cell) : option Q :=
  match c with
  | Num q => Some q
  | _ => None
  end.

(** The cells of a column at the row indices max(0, i-n+1) .. i. *)
Definition window_at (n : Z) (i : nat) (s : list cell) : list cell :=
  let lo := Z.to_nat (Z.max 0 (Z.of_nat i - n + 1)) in
  map (fun j => nth j s NaN) (seq lo (i + 1 - lo)).

(** A numeric ID that a double holds exactly. *)
Definition id_exact (o : option (Z + string)) : Prop :=
  match o with
  | Some (inl n) => Z.abs n <= 2 ^ 53
  | _ => True
  end.

(** *** The stages of [preProcess] *)

(** The table that is unstacked: the filled file, without the ID column
    unless it is kept. *)
Definition prepared (f : csv) (keepID : bool) : frame0 :=
  {| columns0 := (if keepID then ["ID"] else [])
                 ++ (if has_TARGETVAR f then ["TARGETVAR"] else [])
                 ++ ["U10"; "V10"; "U100"; "V100"];
     rows0 := rows0 (fillna0 (read_csv f)) |}.

(** What [unstack] returns when it does. *)
Definition unstacked (df : frame0) : frame1 :=
  {| index1 := timepoints df;
     columns1 :=
       flat_map (fun c =>
         map (fun z => (Tup c (Zone z),
                        map (fun t => cell_at df c t z) (timepoints df)))
             (zone_ids df))
         (columns0 df) |}.

(** One assignment of the rolling loop: the column read and the column
    written. *)
Definition job (d name : string) (i : Z) : label * label :=
  (Tup name (Zone i), Tup (name ++ d)%string (Zone i)).

Definition jobs (d : string) (zs : list Z) : list (label * label) :=
  flat_map (fun i => [job d "U10" i; job d "U100" i; job d "V10" i; job d "V100" i]) zs.

Definition run_job (Nroll : Z) (df2 : frame) (j : label * label) : M frame :=
  s <- lift (getitem (fst j) df2) ;;
  m <- lift (rolling_mean Nroll 1 s) ;;
  ret (setitem (snd j) m df2).

Definition rolling_stage (Nroll : Z) (df2 : frame) : M frame :=
  if Nroll >? 1
  then print ("Computing rolling means over " ++ str Nroll ++ " measurements")%string ;;
       foldM (run_job Nroll) (jobs ("_rm" ++ str Nroll)%string wind_measurements) df2
  else print "No rolling means computed" ;;
       ret df2.

Definition calendar_stage (df2 : frame) : M frame :=
  df2 <- add_calendar "YEAR" Datetime.year df2 ;;
  df2 <- add_calendar "DAYOFYEAR" Datetime.tm_yday df2 ;;
  df2 <- add_calendar "HOUR" Datetime.hour df2 ;;
  lift (drop_level0 "TIMESTAMP" df2).

Definition attr_column (f : datetime -> Z) (ts : list datetime) : list cell :=
  map (fun x => Num (inject_Z (f x))) ts.

(** What the calendar stage returns on a frame whose TIMESTAMP column holds
    [ts]. *)
Definition with_calendar (ts : list datetime) (df2 : frame) : frame :=
  filter (fun kc => negb (String.eqb "TIMESTAMP" (top_name (fst kc))))
    (setitem (Tup "HOUR" Blank) (attr_column Datetime.hour ts)
       (setitem (Tup "DAYOFYEAR" Blank) (attr_column Datetime.tm_yday ts)
          (setitem (Tup "YEAR" Blank) (attr_column Datetime.year ts) df2))).

(** The lines [preProcess] prints. *)
Definition id_line (keepID : bool) : string :=
  if keepID then "ID column kept" else "ID column dropped".

Definition rolling_line (Nroll : Z) : string :=
  if Nroll >? 1
  then ("Computing rolling means over " ++ str Nroll ++ " measurements")%string
  else "No rolling means computed".

(** *** What is asked of a file *)

(** The (timestamp, zone) pairs of the records, in file order. *)
Definition keys (f : csv) : list (datetime * Z) :=
  map (fun r => (TIMESTAMP r, ZONEID r)) (records f).

(** No (timestamp, zone) pair occurs twice. *)
Definition unique_keys (f : csv) : Prop := NoDup (keys f).

(** Every timestamp of the file has a record for each zone 1..10. *)
Definition complete (f : csv) : Prop :=
  forall r z, In r (records f) -> 1 <= z <= 10 -> In (TIMESTAMP r, z) (keys f).

(** Each zone 1..10 has a record somewhere in the file. *)
Definition all_zones (f : csv) : Prop :=
  forall z, 1 <= z <= 10 -> In z (map ZONEID (records f)).

(** The rows of the output: the distinct timestamps of the file, ascending. *)
Definition timeline (f : csv) : list datetime :=
  levels Datetime.compare (map TIMESTAMP (records f)).

(** *** Flat names *)

(** A hierarchical column key as a label. *)
Definition tuple (p : string * level) : label := Tup (fst p) (snd p).

Definition is_target (p : string * level) : bool := String.eqb (fst p) "TARGETVAR".

(** The flat name of a key: name_zone, or the name alone without a zone. *)
Definition flat_name (p : string * level) : string :=
  match snd p with
  | Zone z => (fst p ++ "_" ++ str z)%string
  | Blank => fst p
  end.

(** What the renaming makes of a name that is flat already: its first
    character, an underscore and its second character, a trailing underscore
    taken off; it needs two characters. *)
Definition first_two (s : string) : result string :=
  match s with
  | String a (String b _) =>
      if Ascii.eqb b "_" then Ok (String a "_")
      else Ok (String a (String "_" (String b "")))
  | _ => Raise IndexError
  end.

(** The joined name of a hierarchical key. *)
Definition joined_name (p : string * level) : string :=
  (fst p ++ "_" ++ match snd p with Zone z => str z | Blank => "" end)%string.

(** The column keys of the frame [preProcess] returns, in order: the
    columns of the file for each zone of the file, the rolling means, the
    calendar columns. *)
Definition data_keys (f : csv) (keepID : bool) : list (string * level) :=
  flat_map (fun c => map (fun z => (c, Zone z)) (zone_ids (prepared f keepID)))
           (columns0 (prepared f keepID)).

Definition rolling_keys (Nroll : Z) : list (string * level) :=
  if Nroll >? 1
  then flat_map (fun i => [("U10_rm" ++ str Nroll, Zone i); ("U100_rm" ++ str Nroll, Zone i);
                           ("V10_rm" ++ str Nroll, Zone i); ("V100_rm" ++ str Nroll, Zone i)]%string)
                wind_measurements
  else [].

Definition calendar_keys : list (string * level) :=
  [("YEAR", Blank); ("DAYOFYEAR", Blank); ("HOUR", Blank)].

Definition output_keys (f : csv) (Nroll : Z) (keepID : bool) : list (string * level) :=
  data_keys f keepID ++ rolling_keys Nroll ++ calendar_keys.

(** Whether a character occurs in a string. *)
Fixpoint has_char (a : ascii) (s : string) : bool :=
  match s with
  | "" => false
  | String c s' => Ascii.eqb a c || has_char a s'
  end.

(** The flat name of a label: of its key, or the label itself once flat. *)
Definition label_flat_name (k : label) : string :=
  match k with
  | Tup name lv => flat_name (name, lv)
  | Flat s => s
  end.

(** A frame with each label replaced by its flat name, the cells as they
    are. *)
Definition flattened (df : frame) : frame :=
  map (fun kc => (Flat (label_flat_name (fst kc)), snd kc)) df.

(** The line a cell prints after a write: the first one if the writer
    returned, the second one if it raised. *)
Definition report (r : result unit) (saved failed : string) : string :=
  match r with
  | Ok _ => saved
  | Raise _ => failed
  end.

(** *** Some files *)

Definition march_1st_2024 (h : Z)
  (ok : Datetime.check_fields 2024 3 1 h 0 = true) : datetime :=
  Datetime.make 2024 3 1 h 0 ok.

Definition observation (t : datetime) (id : option (Z + string)) (u : Q) (z : Z)
  : RawObservation :=
  {| ID := id; ZONEID := z; TIMESTAMP := t; TARGETVAR := Some (1 # 2)%Q;
     U10 := Some u; V10 := None; U100 := Some (u + 1)%Q; V100 := Some 3%Q |}.

(** The ten records of one hour. *)
Definition one_hour (t : datetime) (u : Q) : list RawObservation :=
  map (observation t (Some (inr "a")) u) wind_measurements.

(** Three consecutive hours, the second one first in the file. *)
Definition three_hours : csv :=
  {| has_TARGETVAR := true;
     records := one_hour (march_1st_2024 1 eq_refl) 4
                ++ one_hour (march_1st_2024 0 eq_refl) 1
                ++ one_hour (march_1st_2024 2 eq_refl) 7 |}.


(** The three hours again, the records of the first one without an ID. *)
Definition three_hours_blank_ids : csv :=
  {| has_TARGETVAR := false;
     records := map (observation (march_1st_2024 0 eq_refl) None 1) wind_measurements
                ++ one_hour (march_1st_2024 1 eq_refl) 4
                ++ one_hour (march_1st_2024 2 eq_refl) 7 |}.

(** Three hours, zone 1 without a record in the second one. *)
Definition zone_missing_once : csv :=
  {| has_TARGETVAR := true;
     records := one_hour (march_1st_2024 0 eq_refl) 1
                ++ tl (one_hour (march_1st_2024 1 eq_refl) 4)
                ++ one_hour (march_1st_2024 2 eq_refl) 7 |}.

(** Two hours, the record of zone 1 at the first one given twice. *)
Definition zone_repeated : csv :=
  {| has_TARGETVAR := true;
     records := observation (march_1st_2024 0 eq_refl) None 9 1
                :: one_hour (march_1st_2024 0 eq_refl) 1
                ++ one_hour (march_1st_2024 1 eq_refl) 4 |}.

(** Hours 0, 1 and 3: two hours between the last two. *)
Definition hours_with_gap : csv :=
  {| has_TARGETVAR := true;
     records := one_hour (march_1st_2024 0 eq_refl) 1
                ++ one_hour (march_1st_2024 1 eq_refl) 4
                ++ one_hour (march_1st_2024 3 eq_refl) 7 |}.

(** Some consecutive timestamps are not one hour apart. *)
Definition has_gap (f : csv) : Prop :=
  exists d, In (Some d) (deltas None (timeline f)) /\ d <> 60.

(** The three hours with a record of a zone 11 in the first one. *)
Definition eleven_zones : csv :=
  {| has_TARGETVAR := true;
     records := observation (march_1st_2024 0 eq_refl) None 5 11
                :: records three_hours |}.

(** The three hours without any record of zone 4. *)
Definition zone_4_absent : csv :=
  {| has_TARGETVAR := true;
     records := filter (fun r => negb (ZONEID r =? 4)) (records three_hours) |}.

(** The three hours, the records in reverse order. *)
Definition three_hours_reversed : csv :=
  {| has_TARGETVAR := true; records := rev (records three_hours) |}.

(** The frame a run returns, the empty frame if it raises. *)
Definition returned (m : M frame) : frame :=
  match outcome m with
  | Ok df => df
  | Raise _ => []
  end.

(* ================================================================= *)
(** * Properties *)

(** ** The monad *)

Lemma outcome_bind {A B} (m : M A) (f : A -> M B) :
  outcome (bind m f) =
  match outcome m with
  | Ok a => outcome (f a)
  | Raise e => Raise e
  end.
Proof.
  destruct m as [out [a | e]]; simpl; [destruct (f a) |]; reflexivity.
Qed.

Lemma printed_bind {A B} (m : M A) (f : A -> M B) :
  printed (bind m f) =
  printed m ++ match outcome m with
               | Ok a => printed (f a)
               | Raise _ => []
               end.
Proof.
  destruct m as [out [a | e]]; simpl.
  - destruct (f a); reflexivity.
  - now rewrite app_nil_r.
Qed.

Lemma bind_ret_l {A B} (a : A) (f : A -> M B) : bind (ret a) f = f a.
Proof. unfold bind, ret. now destruct (f a). Qed.

Lemma lift_Ok {A} (a : A) : lift (Ok a) = ret a.
Proof. reflexivity. Qed.

Lemma bind_assoc {A B C} (m : M A) (f : A -> M B) (g : B -> M C) :
  bind (bind m f) g = bind m (fun a => bind (f a) g).
Proof.
  destruct m as [out [a | e]]; simpl; [| reflexivity].
  destruct (f a) as [out' [b | e]]; simpl; [| reflexivity].
  destruct (g b) as [out'' r]. now rewrite app_assoc.
Qed.

Lemma bind_ext {A B} (m : M A) (f g : A -> M B) :
  (forall a, f a = g a) -> bind m f = bind m g.
Proof.
  intros E. destruct m as [out [a | e]]; simpl; [now rewrite E | reflexivity].
Qed.

(** ** Labels *)

Lemma level_eqb_eq (a b : level) : level_eqb a b = true <-> a = b.
Proof.
  destruct a, b; simpl; split; intros H;
    try discriminate; try reflexivity.
  - apply Z.eqb_eq in H. now subst.
  - injection H as ->. apply Z.eqb_refl.
Qed.

Lemma label_eqb_eq (a b : label) : label_eqb a b = true <-> a = b.
Proof.
  destruct a as [n l | s], b as [n' l' | s']; simpl; split; intros H;
    try discriminate.
  - apply andb_true_iff in H as [H1 H2].
    apply String.eqb_eq in H1. apply level_eqb_eq in H2. now subst.
  - injection H as -> ->. apply andb_true_iff. split.
    + apply String.eqb_refl.
    + now apply level_eqb_eq.
  - apply String.eqb_eq in H. now subst.
  - injection H as ->. apply String.eqb_refl.
Qed.

Lemma label_eqb_refl (a : label) : label_eqb a a = true.
Proof. now apply label_eqb_eq. Qed.

Lemma label_eqb_neq (a b : label) : label_eqb a b = false <-> a <> b.
Proof.
  split.
  - intros H E. apply label_eqb_eq in E. congruence.
  - intros H. destruct (label_eqb a b) eqn:E; [| reflexivity].
    apply label_eqb_eq in E. contradiction.
Qed.

(** ** Columns of a frame *)

Lemma column_setitem_same (k : label) (v : list cell) (df : frame) :
  column k (setitem k v df) = Some v.
Proof.
  induction df as [| [k' c'] df IH]; simpl.
  - now rewrite label_eqb_refl.
  - destruct (label_eqb k k') eqn:E; simpl.
    + now rewrite label_eqb_refl.
    + now rewrite E.
Qed.

Lemma column_setitem_other (k k' : label) (v : list cell) (df : frame) :
  k <> k' -> column k (setitem k' v df) = column k df.
Proof.
  intros N. induction df as [| [k'' c''] df IH]; simpl.
  - apply label_eqb_neq in N. now rewrite N.
  - destruct (label_eqb k' k'') eqn:E; simpl.
    + apply label_eqb_eq in E. subst k''.
      apply label_eqb_neq in N. now rewrite N.
    + now rewrite IH.
Qed.

Lemma column_app (k : label) (d1 d2 : frame) :
  column k (d1 ++ d2) =
  match column k d1 with
  | Some v => Some v
  | None => column k d2
  end.
Proof.
  induction d1 as [| [k' c'] d1 IH]; simpl; [reflexivity |].
  now destruct (label_eqb k k').
Qed.

Lemma column_In (k : label) (v : list cell) (df : frame) :
  column k df = Some v -> In (k, v) df.
Proof.
  induction df as [| [k' c'] df IH]; simpl; [discriminate |].
  destruct (label_eqb k k') eqn:E.
  - apply label_eqb_eq in E. subst. intros [= ->]. now left.
  - intros H. right. now apply IH.
Qed.

Lemma column_filter (p : label -> bool) (k : label) (df : frame) :
  column k (filter (fun kc => p (fst kc)) df) =
  if p k then column k df else None.
Proof.
  induction df as [| [k' c'] df IH]; simpl.
  - now destruct (p k).
  - destruct (p k') eqn:P; simpl.
    + destruct (label_eqb k k') eqn:E.
      * apply label_eqb_eq in E. subst. now rewrite P.
      * exact IH.
    + rewrite IH. destruct (label_eqb k k') eqn:E; [| reflexivity].
      apply label_eqb_eq in E. subst. now rewrite P.
Qed.

Lemma setitem_lengths (n : nat) (k : label) (v : list cell) (df : frame) :
  List.length v = n ->
  Forall (fun kc => List.length (snd kc) = n) df ->
  Forall (fun kc => List.length (snd kc) = n) (setitem k v df).
Proof.
  intros Hv H. induction H as [| [k' c'] df Hc H IH]; simpl.
  - now constructor.
  - destruct (label_eqb k k'); constructor; auto.
Qed.

(** ** Sorted distinct index levels *)

Section LevelsFacts.
Context {A : Type} (cmp : A -> A -> comparison).
Hypothesis cmp_eq : forall x y, cmp x y = Eq -> x = y.
Hypothesis cmp_refl : forall x, cmp x x = Eq.
Hypothesis cmp_opp : forall x y, cmp x y = CompOpp (cmp y x).
Hypothesis cmp_trans : forall x y z, cmp x y = Lt -> cmp y z = Lt -> cmp x z = Lt.

Lemma In_insert (x y : A) (l : list A) :
  In y (insert cmp x l) <-> y = x \/ In y l.
Proof.
  induction l as [| z l IH]; simpl.
  - intuition.
  - destruct (cmp x z) eqn:E; simpl.
    + apply cmp_eq in E. subst. intuition.
    + intuition.
    + rewrite IH. intuition.
Qed.

Lemma In_levels (y : A) (l : list A) : In y (levels cmp l) <-> In y l.
Proof.
  induction l as [| x l IH]; simpl.
  - tauto.
  - rewrite In_insert, IH. intuition.
Qed.

Lemma insert_sorted (x : A) (l : list A) :
  StronglySorted (before cmp) l -> StronglySorted (before cmp) (insert cmp x l).
Proof.
  induction 1 as [| z l S IH F]; simpl.
  - repeat constructor.
  - destruct (cmp x z) eqn:E.
    + now constructor.
    + constructor; [now constructor |].
      constructor; [exact E |].
      eapply Forall_impl; [| exact F].
      intros a Ha. now apply cmp_trans with z.
    + constructor; [exact IH |].
      apply Forall_forall. intros a Ha.
      apply In_insert in Ha as [-> | Ha].
      * unfold before. rewrite cmp_opp, E. reflexivity.
      * rewrite Forall_forall in F. now apply F.
Qed.

Lemma levels_sorted (l : list A) : StronglySorted (before cmp) (levels cmp l).
Proof.
  induction l as [| x l IH]; simpl; [constructor | now apply insert_sorted].
Qed.

Lemma sorted_NoDup (l : list A) : StronglySorted (before cmp) l -> NoDup l.
Proof.
  induction 1 as [| z l S IH F]; constructor; [| exact IH].
  intros Hin. rewrite Forall_forall in F. specialize (F z Hin).
  unfold before in F. rewrite cmp_refl in F. discriminate.
Qed.

Lemma levels_NoDup (l : list A) : NoDup (levels cmp l).
Proof. apply sorted_NoDup, levels_sorted. Qed.

(** The levels are as many as the distinct values. *)
Lemma levels_length (l ds : list A) :
  NoDup ds -> (forall x, In x ds <-> In x l) ->
  List.length (levels cmp l) = List.length ds.
Proof.
  intros ND Same. apply Nat.le_antisymm.
  - apply NoDup_incl_length; [apply levels_NoDup |].
    intros x Hx. apply Same. now apply In_levels.
  - apply NoDup_incl_length; [exact ND |].
    intros x Hx. apply In_levels. now apply Same.
Qed.
End LevelsFacts.

Module DatetimeFacts.
Import Datetime.

Lemma lex_eq (a b : list Z) : lex a b = Eq -> a = b.
Proof.
  revert b. induction a as [| x a IH]; intros [| y b]; simpl;
    try discriminate; [reflexivity |].
  destruct (x ?= y) eqn:E; try discriminate.
  apply Z.compare_eq in E. subst. intros H. f_equal. now apply IH.
Qed.

Lemma lex_refl (a : list Z) : lex a a = Eq.
Proof.
  induction a as [| x a IH]; simpl; [reflexivity |].
  now rewrite Z.compare_refl.
Qed.

Lemma lex_opp (a b : list Z) : lex a b = CompOpp (lex b a).
Proof.
  revert b. induction a as [| x a IH]; intros [| y b]; simpl;
    try reflexivity.
  rewrite (Z.compare_antisym y x).
  destruct (y ?= x); simpl; [apply IH | reflexivity | reflexivity].
Qed.

Lemma lex_trans (a b c : list Z) : lex a b = Lt -> lex b c = Lt -> lex a c = Lt.
Proof.
  revert b c. induction a as [| x a IH]; intros [| y b] [| z c]; simpl;
    try discriminate; try reflexivity.
  destruct (x ?= y) eqn:E1; try discriminate;
    destruct (y ?= z) eqn:E2; try discriminate; intros H1 H2.
  - apply Z.compare_eq in E1, E2. subst. rewrite Z.compare_refl.
    now apply IH with b.
  - apply Z.compare_eq in E1. subst. now rewrite E2.
  - apply Z.compare_eq in E2. subst. now rewrite E1.
  - assert ((x ?= z) = Lt) as ->; [| reflexivity].
    rewrite Z.compare_lt_iff in *. lia.
Qed.

Lemma fields_inj (x y : t) : fields x = fields y -> x = y.
Proof.
  destruct x as [y1 m1 d1 h1 i1 c1], y as [y2 m2 d2 h2 i2 c2].
  unfold fields; simpl. intros [= -> -> -> -> ->].
  f_equal. apply UIP_dec. apply Bool.bool_dec.
Qed.

Lemma compare_eq (x y : t) : compare x y = Eq -> x = y.
Proof. intros H. apply fields_inj, lex_eq, H. Qed.

Lemma compare_refl (x : t) : compare x x = Eq.
Proof. apply lex_refl. Qed.

Lemma compare_opp (x y : t) : compare x y = CompOpp (compare y x).
Proof. apply lex_opp. Qed.

Lemma compare_trans (x y z : t) :
  compare x y = Lt -> compare y z = Lt -> compare x z = Lt.
Proof. apply lex_trans. Qed.

Lemma eqb_eq (x y : t) : eqb x y = true <-> x = y.
Proof.
  unfold eqb. split.
  - destruct (compare x y) eqn:E; try discriminate. intros _. now apply compare_eq.
  - intros ->. now rewrite compare_refl.
Qed.


Lemma month_range (x : t) : 1 <= month x <= 12.
Proof.
  pose proof (checked x) as H. unfold check_fields in H.
  repeat (apply andb_true_iff in H as [H ?]). lia.
Qed.

Lemma day_range (x : t) : 1 <= day x <= days_in_month (year x) (month x).
Proof.
  pose proof (checked x) as H. unfold check_fields in H.
  repeat (apply andb_true_iff in H as [H ?]). lia.
Qed.


End DatetimeFacts.

(** ** The rolling window *)

Lemma keep_last_app {A} (n : nat) (l l' : list A) :
  keep_last n (keep_last n l ++ l') = keep_last n (l ++ l').
Proof.
  unfold keep_last.
  destruct (Nat.le_gt_cases (List.length l) n) as [H | H].
  - replace (List.length l - n)%nat with 0%nat by lia. reflexivity.
  - rewrite !length_app, length_skipn.
    replace (List.length l - (List.length l - n) + List.length l' - n)%nat
      with (List.length l')%nat by lia.
    replace (List.length l + List.length l' - n)%nat
      with (List.length l' + (List.length l - n))%nat by lia.
    rewrite <- skipn_skipn. f_equal.
    rewrite skipn_app.
    replace (List.length l - n - List.length l)%nat with 0%nat by lia.
    reflexivity.
Qed.

Lemma roll_length (n mp : nat) (xs held : list (option Q)) :
  List.length (roll n mp held xs) = List.length xs.
Proof.
  revert held. induction xs as [| x xs IH]; intros held; simpl; [reflexivity |].
  now rewrite IH.
Qed.

Lemma roll_nth_error (n mp : nat) (xs held : list (option Q)) (i : nat) :
  (i < List.length xs)%nat ->
  nth_error (roll n mp held xs) i =
  Some (window_mean mp (keep_last n (held ++ firstn (S i) xs))).
Proof.
  revert held i. induction xs as [| x xs IH]; intros held i Hi; simpl in Hi.
  - lia.
  - destruct i as [| i].
    + reflexivity.
    + cbn [roll nth_error]. rewrite IH by lia.
      rewrite keep_last_app. rewrite <- app_assoc. reflexivity.
Qed.

Lemma skipn_firstn_nth {A} (d : A) (xs : list A) (lo hi : nat) :
  (hi <= List.length xs)%nat ->
  skipn lo (firstn hi xs) = map (fun j => nth j xs d) (seq lo (hi - lo)).
Proof.
  intros H. apply nth_error_ext. intros k.
  rewrite nth_error_skipn, nth_error_firstn, nth_error_map, nth_error_seq.
  destruct (Nat.ltb_spec k (hi - lo)) as [L | L];
    destruct (Nat.ltb_spec (lo + k) hi) as [L' | L']; try lia; simpl.
  - apply nth_error_nth'. lia.
  - reflexivity.
Qed.

Lemma mapR_as_float (s : list cell) (xs : list (option Q)) :
  mapR as_float s = Ok xs -> xs = map float_of s.
Proof.
  revert xs. induction s as [| c s IH]; intros xs; simpl.
  - now intros [= <-].
  - destruct c; simpl; try discriminate;
      (destruct (mapR as_float s) as [ys | e]; [| discriminate]);
      intros [= <-]; now rewrite (IH ys eq_refl).
Qed.

(** The window [rolling(n, min_periods=1)] holds at each row: the rows
    max(0, i-n+1) .. i. *)
Lemma rolling_mean_spec (n : Z) (s m : list cell) :
  0 < n ->
  rolling_mean n 1 s = Ok m ->
  List.length m = List.length s
  /\ forall i, (i < List.length s)%nat ->
       nth_error m i = Some (window_mean 1 (map float_of (window_at n i s))).
Proof.
  intros Hn. unfold rolling_mean.
  destruct (n <? 0) eqn:E; [apply Z.ltb_lt in E; lia |].
  destruct (mapR as_float s) as [xs |] eqn:F; [| discriminate].
  intros [= <-]. apply mapR_as_float in F. subst xs. split.
  - now rewrite roll_length, length_map.
  - intros i Hi. rewrite roll_nth_error by now rewrite length_map.
    f_equal. f_equal.
    cbn [app]. unfold keep_last, window_at.
    rewrite length_firstn, length_map.
    rewrite skipn_firstn_nth with (d := None) by (rewrite length_map; lia).
    rewrite map_map.
    replace (Init.Nat.min (S i) (List.length s) - Z.to_nat n)%nat
      with (Z.to_nat (Z.max 0 (Z.of_nat i - n + 1))) by lia.
    replace (S i - Z.to_nat (Z.max 0 (Z.of_nat i - n + 1)))%nat
      with (i + 1 - Z.to_nat (Z.max 0 (Z.of_nat i - n + 1)))%nat by lia.
    apply map_ext. intros j.
    change None with (float_of NaN). now rewrite map_nth.
Qed.

(** ** The stages of preProcess *)

Lemma unstack_unstacked (df : frame0) :
  unstack df =
  if has_duplicates (rows0 df)
  then Raise (ValueError "Index contains duplicate entries, cannot reshape")
  else Ok (unstacked df).
Proof. reflexivity. Qed.

Lemma rolling_loop (Nroll : Z) (d : string) (zs : list Z) (df2 : frame) :
  foldM (fun df2 i =>
           df2 <- add_rolling Nroll d "U10" i df2 ;;
           df2 <- add_rolling Nroll d "U100" i df2 ;;
           df2 <- add_rolling Nroll d "V10" i df2 ;;
           add_rolling Nroll d "V100" i df2) zs df2
  = foldM (run_job Nroll) (jobs d zs) df2.
Proof.
  revert df2. induction zs as [| i zs IH]; intros df2; [reflexivity |].
  cbn [foldM jobs flat_map app]. rewrite !bind_assoc.
  apply bind_ext. intros a1. rewrite !bind_assoc.
  apply bind_ext. intros a2. rewrite !bind_assoc.
  apply bind_ext. intros a3.
  apply bind_ext. intros a4. apply IH.
Qed.

Lemma preProcess_stages (f : csv) (Nroll : Z) (keepID : bool) :
  preProcess f Nroll keepID =
  (print (if keepID then "ID column kept" else "ID column dropped") ;;
   df1 <- lift (unstack (prepared f keepID)) ;;
   print "unstacked" ;;
   df2 <- rolling_stage Nroll (reset_index df1) ;;
   calendar_stage df2).
Proof.
  unfold preProcess. cbv zeta.
  assert (forall K : frame0 -> M frame,
    bind (if negb keepID
          then df0 <- lift (drop0 "ID" (fillna0 (read_csv f))) ;;
               print "ID column dropped" ;; ret df0
          else print "ID column kept" ;; ret (fillna0 (read_csv f))) K
    = (print (if keepID then "ID column kept" else "ID column dropped") ;;
       K (prepared f keepID))) as B.
  { intros K. destruct f as [h rs]. destruct keepID, h; reflexivity. }
  rewrite B. apply bind_ext. intros _.
  apply bind_ext. intros df1. apply bind_ext. intros _.
  assert (forall df2 : frame,
    foldM (fun df2 i =>
             if negb (existsb (Z.eqb i) wind_measurements)
             then lift (drop_labels [Tup "U10" (Zone i); Tup "V10" (Zone i);
                                     Tup "U100" (Zone i); Tup "V100" (Zone i)] df2)
             else ret df2)
          (range 1 (nturbines + 1)) df2 = ret df2) as D by reflexivity.
  rewrite D, bind_ret_l. unfold rolling_stage.
  destruct (Nroll >? 1); [| reflexivity].
  rewrite rolling_loop. reflexivity.
Qed.

(** ** The rolling loop *)

Lemma run_job_inv (Nroll : Z) (df df' : frame) (j : label * label) :
  outcome (run_job Nroll df j) = Ok df' ->
  exists s m, column (fst j) df = Some s
              /\ rolling_mean Nroll 1 s = Ok m
              /\ df' = setitem (snd j) m df.
Proof.
  unfold run_job, getitem. rewrite outcome_bind. cbn [lift outcome snd].
  destruct (column (fst j) df) as [s |]; [| discriminate].
  rewrite outcome_bind. cbn [lift outcome snd].
  destruct (rolling_mean Nroll 1 s) as [m |] eqn:R; [| discriminate].
  cbn. intros [= <-]. now exists s, m.
Qed.

Lemma run_job_printed (Nroll : Z) (df : frame) (j : label * label) :
  printed (run_job Nroll df j) = [].
Proof.
  unfold run_job, getitem. rewrite printed_bind. cbn [lift outcome printed fst snd].
  destruct (column (fst j) df) as [s |]; [| reflexivity].
  rewrite printed_bind. cbn [lift outcome printed fst snd].
  now destruct (rolling_mean Nroll 1 s).
Qed.

Lemma run_jobs_printed (Nroll : Z) (js : list (label * label)) (df : frame) :
  printed (foldM (run_job Nroll) js df) = [].
Proof.
  revert df. induction js as [| j js IH]; intros df; cbn [foldM]; [reflexivity |].
  rewrite printed_bind, run_job_printed.
  destruct (outcome (run_job Nroll df j)); [apply IH | reflexivity].
Qed.

(** A column that no assignment writes is left as it was. *)
Lemma run_jobs_frame (Nroll : Z) (js : list (label * label)) (df df' : frame) :
  outcome (foldM (run_job Nroll) js df) = Ok df' ->
  forall k, ~ In k (map snd js) -> column k df' = column k df.
Proof.
  revert df. induction js as [| j js IH]; intros df; cbn [foldM].
  - cbn. now intros [= <-].
  - rewrite outcome_bind.
    destruct (outcome (run_job Nroll df j)) as [df1 |] eqn:E; [| discriminate].
    apply run_job_inv in E as (s & m & _ & _ & ->).
    intros H k Hk. rewrite (IH _ H) by (intros X; apply Hk; now right).
    apply column_setitem_other. intros ->. apply Hk. now left.
Qed.

(** Every assignment leaves the rolling mean of the column it read in the
    column it wrote. *)
Lemma run_jobs_written (Nroll : Z) (js : list (label * label)) (df df' : frame) :
  outcome (foldM (run_job Nroll) js df) = Ok df' ->
  NoDup (map snd js) ->
  (forall j, In j js -> ~ In (fst j) (map snd js)) ->
  forall j, In j js ->
    exists s m, column (fst j) df = Some s
                /\ rolling_mean Nroll 1 s = Ok m
                /\ column (snd j) df' = Some m.
Proof.
  revert df. induction js as [| j0 js IH]; intros df; cbn [foldM].
  - intros _ _ _ j [].
  - rewrite outcome_bind.
    destruct (outcome (run_job Nroll df j0)) as [df1 |] eqn:E; [| discriminate].
    apply run_job_inv in E as (s0 & m0 & Hs0 & Hm0 & ->).
    intros H ND Src j [<- | Hj].
    + exists s0, m0. repeat split; trivial.
      rewrite (run_jobs_frame _ _ _ _ H) by now inversion ND.
      apply column_setitem_same.
    + inversion ND as [| ? ? Hnot ND']; subst.
      destruct (IH _ H ND') with (j := j) as (s & m & Hs & Hm & Hc); trivial.
      * intros j' Hj' X. apply (Src j'); [now right | now right].
      * exists s, m. repeat split; trivial.
        rewrite column_setitem_other in Hs; trivial.
        intros X. apply (Src j); [now right | left; now symmetry].
Qed.

(** The loop goes through when every column it reads is a float column. *)
Lemma run_jobs_total (Nroll : Z) (js : list (label * label)) (df : frame) :
  0 <= Nroll ->
  (forall j, In j js -> ~ In (fst j) (map snd js)) ->
  (forall j, In j js ->
     exists s xs, column (fst j) df = Some s /\ mapR as_float s = Ok xs) ->
  exists df', outcome (foldM (run_job Nroll) js df) = Ok df'.
Proof.
  intros HN. revert df. induction js as [| j0 js IH]; intros df Src Cols; cbn [foldM].
  - now exists df.
  - rewrite outcome_bind.
    destruct (Cols j0 (or_introl eq_refl)) as (s0 & xs0 & Hs0 & Hx0).
    assert (outcome (run_job Nroll df j0)
            = Ok (setitem (snd j0) (roll (Z.to_nat Nroll) 1 [] xs0) df)) as ->.
    { unfold run_job, getitem. rewrite outcome_bind, Hs0. cbn [lift outcome snd].
      rewrite outcome_bind. unfold rolling_mean. rewrite Hx0.
      destruct (Nroll <? 0) eqn:E; [apply Z.ltb_lt in E; lia | reflexivity]. }
    apply IH.
    + intros j Hj X. apply (Src j); [now right | now right].
    + intros j Hj. destruct (Cols j (or_intror Hj)) as (s & xs & Hs & Hx).
      exists s, xs. split; trivial.
      rewrite column_setitem_other; trivial.
      intros X. apply (Src j); [now right | left; now symmetry].
Qed.

(** The labels the loop reads and writes. *)
Lemma In_jobs (d : string) (zs : list Z) (j : label * label) :
  In j (jobs d zs) <->
  exists q i, In q wind_quantities /\ In i zs /\ j = job d q i.
Proof.
  unfold jobs. rewrite in_flat_map. split.
  - intros (i & Hi & Hj). simpl in Hj.
    destruct Hj as [<- | [<- | [<- | [<- | []]]]];
      eexists _, i; (split; [| split; [exact Hi | reflexivity]]); simpl; auto.
  - intros (q & i & Hq & Hi & ->). exists i. split; trivial.
    simpl in Hq. destruct Hq as [<- | [<- | [<- | [<- | []]]]]; simpl; auto.
Qed.

Lemma rm_name_fresh (d q c : string) :
  In q wind_quantities ->
  In c ["ID"; "TARGETVAR"; "U10"; "V10"; "U100"; "V100";
        "TIMESTAMP"; "YEAR"; "DAYOFYEAR"; "HOUR"] ->
  (q ++ "_rm" ++ d)%string <> c.
Proof.
  simpl. intros [<- | [<- | [<- | [<- | []]]]]
    [<- | [<- | [<- | [<- | [<- | [<- | [<- | [<- | [<- | [<- | []]]]]]]]]]];
    simpl; discriminate.
Qed.

Lemma jobs_NoDup (d : string) (zs : list Z) :
  NoDup zs -> NoDup (map snd (jobs ("_rm" ++ d) zs)).
Proof.
  induction 1 as [| i zs Hi ND IH]; [constructor |].
  assert (forall q, In q wind_quantities ->
            ~ In (Tup (q ++ "_rm" ++ d)%string (Zone i)) (map snd (jobs ("_rm" ++ d) zs))) as F.
  { intros q Hq X. apply in_map_iff in X as (j & E & Hj).
    apply In_jobs in Hj as (q' & i' & _ & Hi' & ->).
    injection E as _ ->. contradiction. }
  cbn [jobs flat_map app map snd job].
  repeat constructor; try exact IH;
    cbn [In]; intros X;
    repeat (destruct X as [X | X]; [discriminate X |]);
    (eapply F; [| exact X]); simpl; auto.
Qed.

(** ** The calendar columns *)

Lemma map_attr_times (f : datetime -> Z) (ts : list datetime) :
  map_attr f (map Time ts) = Ok (attr_column f ts).
Proof.
  unfold map_attr, attr_column. induction ts as [| x ts IH]; simpl; [reflexivity |].
  now rewrite IH.
Qed.

Lemma add_calendar_spec (name : string) (f : datetime -> Z)
      (ts : list datetime) (df : frame) :
  column (Tup "TIMESTAMP" Blank) df = Some (map Time ts) ->
  add_calendar name f df = ret (setitem (Tup name Blank) (attr_column f ts) df).
Proof.
  intros H. unfold add_calendar, getitem. rewrite H.
  rewrite lift_Ok, bind_ret_l, map_attr_times, lift_Ok, bind_ret_l.
  reflexivity.
Qed.

Lemma column_exists_top (k : label) (v : list cell) (df : frame) :
  column k df = Some v ->
  existsb (fun kc => String.eqb (top_name k) (top_name (fst kc))) df = true.
Proof.
  intros H. apply column_In in H. apply existsb_exists.
  exists (k, v). split; trivial. apply String.eqb_refl.
Qed.

Lemma calendar_stage_spec (ts : list datetime) (df : frame) :
  column (Tup "TIMESTAMP" Blank) df = Some (map Time ts) ->
  calendar_stage df = ret (with_calendar ts df).
Proof.
  intros H. unfold calendar_stage.
  rewrite (add_calendar_spec _ _ ts) by exact H. rewrite bind_ret_l.
  rewrite (add_calendar_spec _ _ ts)
    by (rewrite column_setitem_other; [exact H | discriminate]).
  rewrite bind_ret_l.
  rewrite (add_calendar_spec _ _ ts)
    by (rewrite !column_setitem_other; [exact H | discriminate | discriminate]).
  rewrite bind_ret_l. unfold drop_level0, with_calendar.
  match goal with
  | |- lift (if existsb ?p ?d then _ else _) = _ =>
      assert (existsb p d = true) as ->; [| reflexivity]
  end.
  apply (column_exists_top (Tup "TIMESTAMP" Blank) (map Time ts)).
  rewrite !column_setitem_other; [exact H | discriminate ..].
Qed.

(** The columns of the returned frame, in terms of the frame that entered
    the calendar stage. *)
Lemma column_with_calendar (ts : list datetime) (df : frame) (k : label) :
  column k (with_calendar ts df) =
  if String.eqb "TIMESTAMP" (top_name k) then None
  else if label_eqb k (Tup "HOUR" Blank) then Some (attr_column Datetime.hour ts)
  else if label_eqb k (Tup "DAYOFYEAR" Blank) then Some (attr_column Datetime.tm_yday ts)
  else if label_eqb k (Tup "YEAR" Blank) then Some (attr_column Datetime.year ts)
  else column k df.
Proof.
  unfold with_calendar.
  rewrite (column_filter (fun k => negb (String.eqb "TIMESTAMP" (top_name k)))).
  destruct (String.eqb "TIMESTAMP" (top_name k)); simpl negb; cbv iota; [reflexivity |].
  destruct (label_eqb k (Tup "HOUR" Blank)) eqn:E1.
  { apply label_eqb_eq in E1. subst. apply column_setitem_same. }
  apply label_eqb_neq in E1. rewrite column_setitem_other by exact E1.
  destruct (label_eqb k (Tup "DAYOFYEAR" Blank)) eqn:E2.
  { apply label_eqb_eq in E2. subst. apply column_setitem_same. }
  apply label_eqb_neq in E2. rewrite column_setitem_other by exact E2.
  destruct (label_eqb k (Tup "YEAR" Blank)) eqn:E3.
  { apply label_eqb_eq in E3. subst. apply column_setitem_same. }
  apply label_eqb_neq in E3. now rewrite column_setitem_other by exact E3.
Qed.

(** ** The unstacked columns *)

Lemma column_product (g : string -> Z -> list cell) (cs : list string)
      (zs : list Z) (c : string) (z : Z) :
  In c cs -> In z zs ->
  column (Tup c (Zone z))
         (flat_map (fun c => map (fun z => (Tup c (Zone z), g c z)) zs) cs)
  = Some (g c z).
Proof.
  intros Hc Hz. induction cs as [| c' cs IH]; [contradiction |].
  cbn [flat_map]. rewrite column_app.
  destruct (String.eqb c c') eqn:E.
  - apply String.eqb_eq in E. subst c'.
    assert (column (Tup c (Zone z)) (map (fun z0 => (Tup c (Zone z0), g c z0)) zs)
            = Some (g c z)) as ->; [| reflexivity].
    clear IH Hc. induction zs as [| z' zs IHz]; [contradiction |].
    cbn [map column label_eqb level_eqb]. rewrite String.eqb_refl. cbn [andb].
    destruct (z =? z') eqn:Ez.
    + apply Z.eqb_eq in Ez. now subst.
    + apply IHz. destruct Hz as [-> | Hz]; [rewrite Z.eqb_refl in Ez; discriminate | exact Hz].
  - assert (column (Tup c (Zone z)) (map (fun z0 => (Tup c' (Zone z0), g c' z0)) zs)
            = None) as ->.
    { clear IH Hz. induction zs as [| z' zs IHz]; [reflexivity |].
      cbn [map column label_eqb]. rewrite E. cbn [andb]. exact IHz. }
    apply IH. destruct Hc as [<- | Hc]; [rewrite String.eqb_refl in E; discriminate | exact Hc].
Qed.

Lemma column_unstacked (df : frame0) (c : string) (z : Z) :
  In c (columns0 df) -> In z (zone_ids df) ->
  column (Tup c (Zone z)) (reset_index (unstacked df))
  = Some (map (fun t => cell_at df c t z) (timepoints df)).
Proof.
  intros Hc Hz. unfold reset_index. cbn [column label_eqb index1 columns1 unstacked].
  cbn [String.eqb Ascii.eqb Bool.eqb level_eqb andb].
  destruct (String.eqb c "TIMESTAMP"); cbn [andb];
    now apply (column_product (fun c z => map (fun t => cell_at df c t z) (timepoints df))).
Qed.

Lemma column_unstacked_inv (df : frame0) (k : label) (v : list cell) :
  column k (reset_index (unstacked df)) = Some v ->
  k = Tup "TIMESTAMP" Blank /\ v = map Time (timepoints df)
  \/ exists c z, k = Tup c (Zone z) /\ In c (columns0 df) /\ In z (zone_ids df)
                 /\ v = map (fun t => cell_at df c t z) (timepoints df).
Proof.
  unfold reset_index. cbn [column index1 columns1 unstacked].
  destruct (label_eqb k (Tup "TIMESTAMP" Blank)) eqn:E.
  - apply label_eqb_eq in E. intros [= <-]. now left.
  - intros H. right. apply column_In in H. apply in_flat_map in H as (c & Hc & H).
    apply in_map_iff in H as (z & [= <- <-] & Hz). now exists c, z.
Qed.

Lemma timestamp_unstacked (df : frame0) :
  column (Tup "TIMESTAMP" Blank) (reset_index (unstacked df))
  = Some (map Time (timepoints df)).
Proof. reflexivity. Qed.

(** ** Records and index entries *)

Lemma same_key_eq (t : datetime) (z : Z) (r : row0) :
  same_key t z r = true <-> (t, z) = (stamp r, zone r).
Proof.
  unfold same_key. rewrite andb_true_iff, DatetimeFacts.eqb_eq, Z.eqb_eq.
  split; [intros [-> ->]; reflexivity | intros [= -> ->]; now split].
Qed.

Lemma existsb_same_key (t : datetime) (z : Z) (rs : list row0) :
  existsb (same_key t z) rs = true
  <-> In (t, z) (map (fun r => (stamp r, zone r)) rs).
Proof.
  rewrite existsb_exists, in_map_iff. split.
  - intros (r & Hr & E). apply same_key_eq in E. now exists r.
  - intros (r & E & Hr). exists r. split; trivial. now apply same_key_eq.
Qed.

Lemma has_duplicates_NoDup (rs : list row0) :
  has_duplicates rs = false <-> NoDup (map (fun r => (stamp r, zone r)) rs).
Proof.
  induction rs as [| r rs IH]; simpl.
  - split; [constructor | reflexivity].
  - rewrite orb_false_iff, IH. split.
    + intros [H ND]. constructor; trivial.
      intros X. apply existsb_same_key in X. congruence.
    + intros ND. inversion ND as [| ? ? Hn ND']; subst. split; trivial.
      destruct (existsb (same_key (stamp r) (zone r)) rs) eqn:E; trivial.
      apply existsb_same_key in E. contradiction.
Qed.

Lemma find_unique (rs : list row0) (r : row0) :
  NoDup (map (fun r => (stamp r, zone r)) rs) -> In r rs ->
  find (same_key (stamp r) (zone r)) rs = Some r.
Proof.
  induction rs as [| r' rs IH]; [contradiction |].
  intros ND Hr. inversion ND as [| ? ? Hn ND']; subst. cbn [find].
  destruct (same_key (stamp r) (zone r) r') eqn:E.
  - destruct Hr as [-> | Hr]; trivial.
    apply same_key_eq in E. exfalso. apply Hn. rewrite <- E.
    apply in_map_iff. now exists r.
  - destruct Hr as [-> | Hr]; [| now apply IH].
    assert (same_key (stamp r) (zone r) r = true) by now apply same_key_eq.
    congruence.
Qed.

Lemma find_absent (rs : list row0) (t : datetime) (z : Z) :
  ~ In (t, z) (map (fun r => (stamp r, zone r)) rs) ->
  find (same_key t z) rs = None.
Proof.
  intros H. destruct (find (same_key t z) rs) as [r |] eqn:E; trivial.
  apply find_some in E as [Hr E]. apply same_key_eq in E.
  exfalso. apply H. rewrite E. apply in_map_iff. now exists r.
Qed.

(** *** The prepared table *)

Lemma prepared_keys (f : csv) (keepID : bool) :
  map (fun r => (stamp r, zone r)) (rows0 (prepared f keepID)) = keys f.
Proof.
  unfold prepared, keys. cbn [rows0 fillna0 read_csv]. now rewrite !map_map.
Qed.

Lemma prepared_timepoints (f : csv) (keepID : bool) :
  timepoints (prepared f keepID) = timeline f.
Proof.
  unfold timepoints, timeline, prepared. cbn [rows0 fillna0 read_csv].
  now rewrite !map_map.
Qed.

Lemma prepared_zone_ids (f : csv) (keepID : bool) :
  zone_ids (prepared f keepID) = levels Z.compare (map ZONEID (records f)).
Proof.
  unfold zone_ids, prepared. cbn [rows0 fillna0 read_csv]. now rewrite !map_map.
Qed.

Lemma In_zone_ids (f : csv) (keepID : bool) (z : Z) :
  In z (zone_ids (prepared f keepID)) <-> In z (map ZONEID (records f)).
Proof.
  rewrite prepared_zone_ids. apply In_levels. apply Z.compare_eq.
Qed.

Lemma In_timeline (f : csv) (t : datetime) :
  In t (timeline f) <-> In t (map TIMESTAMP (records f)).
Proof. apply In_levels. apply DatetimeFacts.compare_eq. Qed.

Lemma timeline_sorted (f : csv) :
  StronglySorted (fun a b => Datetime.compare a b = Lt) (timeline f).
Proof.
  apply (levels_sorted Datetime.compare).
  - apply DatetimeFacts.compare_eq.
  - apply DatetimeFacts.compare_opp.
  - apply DatetimeFacts.compare_trans.
Qed.

Lemma timeline_NoDup (f : csv) : NoDup (timeline f).
Proof.
  apply (sorted_NoDup Datetime.compare).
  - apply DatetimeFacts.compare_refl.
  - apply timeline_sorted.
Qed.

Lemma prepared_unique (f : csv) (keepID : bool) :
  has_duplicates (rows0 (prepared f keepID)) = false <-> unique_keys f.
Proof. rewrite has_duplicates_NoDup, prepared_keys. reflexivity. Qed.

(** The cell of a record after the pivot: its field, zero-filled. *)
Lemma cell_at_record (f : csv) (keepID : bool) (c : string) (r : RawObservation) :
  unique_keys f -> In r (records f) ->
  cell_at (prepared f keepID) c (TIMESTAMP r) (ZONEID r) = fill0 (field r c).
Proof.
  intros U Hr. unfold cell_at.
  set (r0 := {| stamp := TIMESTAMP r; zone := ZONEID r;
                at_column := fun c => fill0 (field r c) |}).
  assert (In r0 (rows0 (prepared f keepID))) as Hin.
  { unfold prepared. cbn [rows0 fillna0 read_csv]. rewrite map_map.
    apply in_map_iff. now exists r. }
  pose proof (find_unique (rows0 (prepared f keepID)) r0) as F.
  rewrite prepared_keys in F. specialize (F U Hin).
  cbn [stamp zone r0] in F. now rewrite F.
Qed.

(** Where the file has no record, the pivot leaves NaN. *)
Lemma cell_at_missing (f : csv) (keepID : bool) (c : string) (t : datetime) (z : Z) :
  ~ In (t, z) (keys f) -> cell_at (prepared f keepID) c t z = NaN.
Proof.
  intros H. unfold cell_at. rewrite find_absent; trivial.
  now rewrite prepared_keys.
Qed.

Lemma In_keys (f : csv) (t : datetime) (z : Z) :
  In (t, z) (keys f) <->
  exists r, In r (records f) /\ TIMESTAMP r = t /\ ZONEID r = z.
Proof.
  unfold keys. rewrite in_map_iff. split.
  - intros (r & [= <- <-] & Hr). now exists r.
  - intros (r & Hr & <- & <-). now exists r.
Qed.

(** A wind cell of the pivot is a number or NaN. *)
Lemma wind_cell_float (f : csv) (keepID : bool) (q : string) (t : datetime) (z : Z) :
  In q wind_quantities ->
  exists o, as_float (cell_at (prepared f keepID) q t z) = Ok o.
Proof.
  intros Hq. unfold cell_at.
  destruct (find (same_key t z) (rows0 (prepared f keepID))) as [r0 |] eqn:E.
  - apply find_some in E as [Hin _].
    unfold prepared in Hin. cbn [rows0 fillna0 read_csv] in Hin.
    rewrite map_map in Hin. apply in_map_iff in Hin as (r & <- & _).
    cbn [at_column].
    simpl in Hq. destruct Hq as [<- | [<- | [<- | [<- | []]]]]; cbn;
      match goal with |- context [float_cell ?o] => destruct o end;
      cbn; eauto.
  - cbn. eauto.
Qed.

Lemma mapR_as_float_total {A} (g : A -> cell) (l : list A) :
  (forall a, exists o, as_float (g a) = Ok o) ->
  exists xs, mapR as_float (map g l) = Ok xs.
Proof.
  intros H. induction l as [| a l [xs IH]]; simpl; [eauto |].
  destruct (H a) as [o ->]. rewrite IH. eauto.
Qed.

(** ** preProcess as a whole *)

Lemma gtb_1 (n : Z) : (n >? 1) = true <-> 1 < n.
Proof. rewrite Z.gtb_ltb. apply Z.ltb_lt. Qed.

Lemma gtb_1_false (n : Z) : (n >? 1) = false <-> n <= 1.
Proof. rewrite Z.gtb_ltb. apply Z.ltb_ge. Qed.

Lemma rolling_stage_printed (Nroll : Z) (df : frame) :
  printed (rolling_stage Nroll df) = [rolling_line Nroll].
Proof.
  unfold rolling_stage, rolling_line. destruct (Nroll >? 1).
  - rewrite printed_bind. cbn [print printed outcome fst snd].
    now rewrite run_jobs_printed.
  - reflexivity.
Qed.

Lemma rolling_stage_outcome (Nroll : Z) (df : frame) :
  outcome (rolling_stage Nroll df) =
  if Nroll >? 1
  then outcome (foldM (run_job Nroll) (jobs ("_rm" ++ str Nroll) wind_measurements) df)
  else Ok df.
Proof.
  unfold rolling_stage. destruct (Nroll >? 1); [| reflexivity].
  now rewrite outcome_bind.
Qed.

Lemma wind_measurements_spec (z : Z) : In z wind_measurements <-> 1 <= z <= 10.
Proof. unfold wind_measurements. simpl. lia. Qed.

Lemma wind_measurements_NoDup : NoDup wind_measurements.
Proof.
  unfold wind_measurements.
  repeat (constructor; [simpl; lia |]). constructor.
Qed.

(** The rolling stage only writes columns named [q_rmN], for a zone. *)
Lemma rolling_stage_frame (Nroll : Z) (df df2 : frame) (k : label) :
  outcome (rolling_stage Nroll df) = Ok df2 ->
  (forall q z, In q wind_quantities ->
               k <> Tup (q ++ "_rm" ++ str Nroll)%string (Zone z)) ->
  column k df2 = column k df.
Proof.
  rewrite rolling_stage_outcome. destruct (Nroll >? 1).
  - intros H Hk. apply (run_jobs_frame _ _ _ _ H).
    intros X. apply in_map_iff in X as (j & E & Hj).
    apply In_jobs in Hj as (q & i & Hq & _ & ->).
    apply (Hk q i Hq). now rewrite <- E.
  - now intros [= <-].
Qed.

Lemma rolling_stage_written (Nroll : Z) (df df2 : frame) (q : string) (z : Z) :
  1 < Nroll ->
  outcome (rolling_stage Nroll df) = Ok df2 ->
  In q wind_quantities -> 1 <= z <= 10 ->
  exists s m, column (Tup q (Zone z)) df = Some s
              /\ rolling_mean Nroll 1 s = Ok m
              /\ column (Tup (q ++ "_rm" ++ str Nroll)%string (Zone z)) df2 = Some m.
Proof.
  intros HN. rewrite rolling_stage_outcome.
  destruct (Nroll >? 1) eqn:E; [| apply gtb_1_false in E; lia].
  intros H Hq Hz.
  apply (run_jobs_written _ _ _ _ H) with (j := job ("_rm" ++ str Nroll) q z).
  - apply jobs_NoDup, wind_measurements_NoDup.
  - intros j Hj X. apply In_jobs in Hj as (q1 & i1 & Hq1 & _ & ->).
    apply in_map_iff in X as (j & E' & Hj).
    apply In_jobs in Hj as (q2 & i2 & Hq2 & _ & ->).
    cbn [job fst snd] in E'. injection E' as E' _.
    apply (rm_name_fresh (str Nroll) q2 q1 Hq2); trivial.
    simpl in Hq1. simpl. intuition.
  - apply In_jobs. exists q, z. repeat split; trivial.
    now apply wind_measurements_spec.
Qed.

Lemma preProcess_outcome (f : csv) (Nroll : Z) (keepID : bool) :
  outcome (preProcess f Nroll keepID) =
  if has_duplicates (rows0 (prepared f keepID))
  then Raise (ValueError "Index contains duplicate entries, cannot reshape")
  else match outcome (rolling_stage Nroll (reset_index (unstacked (prepared f keepID)))) with
       | Ok df2 => Ok (with_calendar (timeline f) df2)
       | Raise e => Raise e
       end.
Proof.
  rewrite preProcess_stages, outcome_bind. cbn [print outcome snd].
  rewrite outcome_bind, unstack_unstacked.
  destruct (has_duplicates (rows0 (prepared f keepID))); [reflexivity |].
  cbn [lift outcome snd]. rewrite outcome_bind. cbn [print outcome snd].
  rewrite outcome_bind.
  destruct (outcome (rolling_stage Nroll (reset_index (unstacked (prepared f keepID)))))
    as [df2 |] eqn:E; [| reflexivity].
  rewrite (calendar_stage_spec (timeline f)); [reflexivity |].
  rewrite (rolling_stage_frame _ _ _ _ E) by (intros; discriminate).
  now rewrite timestamp_unstacked, prepared_timepoints.
Qed.

(** The lines printed depend on the two options, and on whether the index
    had a repeated entry; on nothing else. *)
Lemma preProcess_printed (f : csv) (Nroll : Z) (keepID : bool) :
  printed (preProcess f Nroll keepID) =
  id_line keepID ::
  if has_duplicates (rows0 (prepared f keepID)) then []
  else ["unstacked"; rolling_line Nroll].
Proof.
  rewrite preProcess_stages, printed_bind. cbn [print outcome printed fst snd app].
  fold (id_line keepID). f_equal.
  rewrite printed_bind, unstack_unstacked.
  destruct (has_duplicates (rows0 (prepared f keepID))); [reflexivity |].
  cbn [lift outcome printed fst snd app].
  rewrite printed_bind. cbn [print outcome printed fst snd app]. f_equal.
  rewrite printed_bind, rolling_stage_printed. cbn [app]. f_equal.
  destruct (outcome (rolling_stage Nroll (reset_index (unstacked (prepared f keepID)))))
    as [df2 |] eqn:E; [| reflexivity].
  rewrite (calendar_stage_spec (timeline f)); [reflexivity |].
  rewrite (rolling_stage_frame _ _ _ _ E) by (intros; discriminate).
  now rewrite timestamp_unstacked, prepared_timepoints.
Qed.

Lemma preProcess_Ok (f : csv) (Nroll : Z) (keepID : bool) (out : frame) :
  outcome (preProcess f Nroll keepID) = Ok out ->
  unique_keys f
  /\ exists df2,
       outcome (rolling_stage Nroll (reset_index (unstacked (prepared f keepID)))) = Ok df2
       /\ out = with_calendar (timeline f) df2.
Proof.
  rewrite preProcess_outcome.
  destruct (has_duplicates (rows0 (prepared f keepID))) eqn:D; [discriminate |].
  apply prepared_unique in D.
  destruct (outcome (rolling_stage Nroll (reset_index (unstacked (prepared f keepID)))))
    as [df2 |]; [| discriminate].
  intros [= <-]. split; trivial. now exists df2.
Qed.

Lemma wind_in_prepared (f : csv) (keepID : bool) (q : string) :
  In q wind_quantities -> In q (columns0 (prepared f keepID)).
Proof.
  intros H. unfold prepared. cbn [columns0]. apply in_or_app. right.
  apply in_or_app. right. exact H.
Qed.

(** [preProcess] returns a frame exactly when no index entry is repeated
    and, if rolling means are asked for, each zone 1..10 is in the file. *)
Lemma preProcess_returns (f : csv) (Nroll : Z) (keepID : bool) :
  (exists out, outcome (preProcess f Nroll keepID) = Ok out)
  <-> unique_keys f /\ (1 < Nroll -> all_zones f).
Proof.
  split.
  - intros [out H]. apply preProcess_Ok in H as (U & df2 & H & _).
    split; trivial. intros HN z Hz.
    destruct (rolling_stage_written _ _ _ "U10" z HN H) as (s & m & Hs & _);
      [simpl; auto | exact Hz |].
    apply column_unstacked_inv in Hs as [[E _] | (c & z' & E & _ & Hz' & _)];
      [discriminate |].
    injection E as _ <-. now apply In_zone_ids in Hz'.
  - intros [U Z]. rewrite preProcess_outcome.
    apply prepared_unique with (keepID := keepID) in U. rewrite U.
    rewrite rolling_stage_outcome.
    destruct (Nroll >? 1) eqn:E; [| eauto].
    apply gtb_1 in E. specialize (Z E).
    destruct (run_jobs_total Nroll (jobs ("_rm" ++ str Nroll) wind_measurements)
                (reset_index (unstacked (prepared f keepID)))) as [df2 ->];
      [lia | | | eauto].
    + intros j Hj X. apply In_jobs in Hj as (q1 & i1 & Hq1 & _ & ->).
      apply in_map_iff in X as (j & E' & Hj).
      apply In_jobs in Hj as (q2 & i2 & Hq2 & _ & ->).
      cbn [job fst snd] in E'. injection E' as E' _.
      apply (rm_name_fresh (str Nroll) q2 q1 Hq2); trivial.
      simpl in Hq1. simpl. intuition.
    + intros j Hj. apply In_jobs in Hj as (q & i & Hq & Hi & ->).
      cbn [job fst]. rewrite column_unstacked.
      * destruct (mapR_as_float_total
                    (fun t => cell_at (prepared f keepID) q t i)
                    (timepoints (prepared f keepID))) as [xs Hx].
        { intros t. now apply wind_cell_float. }
        eauto.
      * now apply wind_in_prepared.
      * apply In_zone_ids, Z. now apply wind_measurements_spec.
Qed.

(** ** The columns of the returned frame *)

Lemma column_with_calendar_zone (ts : list datetime) (df : frame)
      (name : string) (z : Z) :
  name <> "TIMESTAMP" ->
  column (Tup name (Zone z)) (with_calendar ts df) = column (Tup name (Zone z)) df.
Proof.
  intros H. rewrite column_with_calendar. cbn [top_name label_eqb level_eqb].
  rewrite !andb_false_r.
  destruct (String.eqb "TIMESTAMP" name) eqn:E; [| reflexivity].
  apply String.eqb_eq in E. congruence.
Qed.

Lemma prepared_columns_known (f : csv) (keepID : bool) (c : string) :
  In c (columns0 (prepared f keepID)) ->
  In c ["ID"; "TARGETVAR"; "U10"; "V10"; "U100"; "V100";
        "TIMESTAMP"; "YEAR"; "DAYOFYEAR"; "HOUR"].
Proof.
  unfold prepared. cbn [columns0].
  destruct keepID, (has_TARGETVAR f); simpl; intuition.
Qed.

Lemma prepared_columns_not_timestamp (f : csv) (keepID : bool) (c : string) :
  In c (columns0 (prepared f keepID)) -> c <> "TIMESTAMP".
Proof.
  unfold prepared. cbn [columns0].
  destruct keepID, (has_TARGETVAR f); simpl; intros H E; subst;
    repeat (destruct H as [H | H]; [discriminate H |]); exact H.
Qed.

(** A column of the file comes out as the pivot left it. *)
Lemma output_data_column (f : csv) (Nroll : Z) (keepID : bool) (out : frame)
      (c : string) (z : Z) :
  outcome (preProcess f Nroll keepID) = Ok out ->
  In c (columns0 (prepared f keepID)) ->
  In z (map ZONEID (records f)) ->
  column (Tup c (Zone z)) out
  = Some (map (fun t => cell_at (prepared f keepID) c t z) (timeline f)).
Proof.
  intros H Hc Hz. apply preProcess_Ok in H as (U & df2 & H & ->).
  rewrite column_with_calendar_zone by now apply prepared_columns_not_timestamp with f keepID.
  rewrite (rolling_stage_frame _ _ _ _ H).
  - rewrite column_unstacked, prepared_timepoints; trivial. now apply In_zone_ids.
  - intros q z' Hq E. injection E as E _.
    apply (rm_name_fresh (str Nroll) q c Hq); [| now symmetry].
    now apply prepared_columns_known with f keepID.
Qed.

(** The cell of a record in the returned frame: in the column of its zone,
    at the row of its timestamp. *)
Lemma output_record_cell (f : csv) (Nroll : Z) (keepID : bool) (out : frame)
      (c : string) (r : RawObservation) :
  outcome (preProcess f Nroll keepID) = Ok out ->
  In c (columns0 (prepared f keepID)) ->
  In r (records f) ->
  exists col i,
    column (Tup c (Zone (ZONEID r))) out = Some col
    /\ nth_error (timeline f) i = Some (TIMESTAMP r)
    /\ nth_error col i = Some (fill0 (field r c)).
Proof.
  intros H Hc Hr.
  assert (unique_keys f) as U by (now apply preProcess_Ok in H).
  assert (In (TIMESTAMP r) (timeline f)) as Ht.
  { apply In_timeline. now apply in_map. }
  apply In_nth_error in Ht as [i Hi].
  eexists _, i. split; [| split; [exact Hi |]].
  - apply (output_data_column _ _ _ _ _ _ H Hc). now apply in_map.
  - rewrite nth_error_map, Hi. cbn [option_map].
    now rewrite cell_at_record.
Qed.

Lemma run_jobs_lengths (Nroll : Z) (n : nat) (js : list (label * label))
      (df df' : frame) :
  0 < Nroll ->
  outcome (foldM (run_job Nroll) js df) = Ok df' ->
  Forall (fun kc => List.length (snd kc) = n) df ->
  Forall (fun kc => List.length (snd kc) = n) df'.
Proof.
  intros HN. revert df. induction js as [| j js IH]; intros df; cbn [foldM].
  - cbn. now intros [= <-].
  - rewrite outcome_bind.
    destruct (outcome (run_job Nroll df j)) as [df1 |] eqn:E; [| discriminate].
    apply run_job_inv in E as (s & m & Hs & Hm & ->).
    intros H F. apply (IH _ H). apply setitem_lengths; trivial.
    destruct (rolling_mean_spec Nroll _ _ HN Hm) as [-> _].
    apply column_In in Hs. rewrite Forall_forall in F. exact (F _ Hs).
Qed.

Lemma unstacked_lengths (df : frame0) :
  Forall (fun kc => List.length (snd kc) = List.length (timepoints df))
         (reset_index (unstacked df)).
Proof.
  unfold reset_index. cbn [index1 columns1 unstacked]. constructor.
  - cbn. apply length_map.
  - apply Forall_forall. intros [k v] H.
    apply in_flat_map in H as (c & _ & H).
    apply in_map_iff in H as (z & [= <- <-] & _). cbn. apply length_map.
Qed.

(** Every column of the returned frame has one cell per timestamp. *)
Lemma output_lengths (f : csv) (Nroll : Z) (keepID : bool) (out : frame) :
  outcome (preProcess f Nroll keepID) = Ok out ->
  Forall (fun kc => List.length (snd kc) = List.length (timeline f)) out.
Proof.
  intros H. apply preProcess_Ok in H as (U & df2 & H & ->).
  assert (Forall (fun kc => List.length (snd kc) = List.length (timeline f)) df2) as F.
  { rewrite rolling_stage_outcome in H.
    pose proof (unstacked_lengths (prepared f keepID)) as L.
    rewrite prepared_timepoints in L.
    destruct (Nroll >? 1) eqn:E.
    - apply gtb_1 in E. apply (run_jobs_lengths Nroll _ _ _ _ ltac:(lia) H L).
    - now injection H as <-. }
  unfold with_calendar. apply Forall_forall. intros kc Hkc.
  apply filter_In in Hkc as [Hkc _]. revert kc Hkc. apply Forall_forall.
  repeat apply setitem_lengths; trivial; apply length_map.
Qed.

Lemma len_output (f : csv) (Nroll : Z) (keepID : bool) (out : frame) :
  outcome (preProcess f Nroll keepID) = Ok out ->
  len out = List.length (timeline f).
Proof.
  intros H. pose proof (output_lengths _ _ _ _ H) as F.
  assert (column (Tup "HOUR" Blank) out <> None) as NE.
  { apply preProcess_Ok in H as (_ & df2 & _ & ->).
    rewrite column_with_calendar. cbn. discriminate. }
  destruct out as [| [k v] out]; [now elim NE |].
  inversion F; subst. assumption.
Qed.

(** ** The rolling-mean columns *)

(** The column quantity_rmNroll of a zone is the rolling mean of the pivoted
    column. *)
Lemma output_rolling_column (f : csv) (Nroll : Z) (keepID : bool) (out : frame)
      (q : string) (z : Z) :
  1 < Nroll ->
  outcome (preProcess f Nroll keepID) = Ok out ->
  In q wind_quantities -> 1 <= z <= 10 ->
  In z (map ZONEID (records f))
  /\ exists m,
       rolling_mean Nroll 1
         (map (fun t => cell_at (prepared f keepID) q t z) (timeline f)) = Ok m
       /\ column (Tup (q ++ "_rm" ++ str Nroll)%string (Zone z)) out = Some m.
Proof.
  intros HN H Hq Hz.
  assert (In z (map ZONEID (records f))) as Z.
  { apply (preProcess_returns f Nroll keepID); eauto. }
  split; trivial.
  apply preProcess_Ok in H as (U & df2 & R & ->).
  destruct (rolling_stage_written _ _ _ q z HN R Hq Hz) as (s & m & Hs & Hm & Hc).
  rewrite column_unstacked, prepared_timepoints in Hs;
    [| now apply wind_in_prepared | now apply In_zone_ids].
  injection Hs as <-. exists m. split; trivial.
  rewrite column_with_calendar_zone; trivial.
  intros E. apply (rm_name_fresh (str Nroll) q "TIMESTAMP" Hq); [simpl; intuition | exact E].
Qed.

(** ** The raw columns stay (C2) *)

Lemma preProcess_without_rolling (f : csv) (Nroll : Z) (keepID : bool) :
  Nroll <= 1 -> unique_keys f ->
  outcome (preProcess f Nroll keepID)
  = Ok (with_calendar (timeline f) (reset_index (unstacked (prepared f keepID)))).
Proof.
  intros HN U. rewrite preProcess_outcome.
  apply prepared_unique with (keepID := keepID) in U. rewrite U.
  rewrite rolling_stage_outcome.
  apply gtb_1_false in HN. now rewrite HN.
Qed.

(** C2.  Called with Nroll > 1, [preProcess] returns a frame exactly when no
    (timestamp, zone) pair is repeated and each zone 1..10 has a record; then
    every column of the frame it returns without rolling means (Nroll = 1)
    is in that frame with the same cells; in particular each raw U10, V10,
    U100, V100 column of a zone 1..10 is there, holding what the pivot of
    the file put in it (the zero-filled field of each record at the row of
    its timestamp), next to the column quantity_rmNroll of that zone. *)
Theorem raw_wind_columns_retained (f : csv) (Nroll : Z) (keepID : bool) :
  1 < Nroll ->
  ((exists out, outcome (preProcess f Nroll keepID) = Ok out)
   <-> unique_keys f /\ all_zones f)
  /\ forall out, outcome (preProcess f Nroll keepID) = Ok out ->
  (exists out1,
     outcome (preProcess f 1 keepID) = Ok out1
     /\ forall k col, column k out1 = Some col -> column k out = Some col)
  /\ (forall q z, In q wind_quantities -> 1 <= z <= 10 ->
        column (Tup q (Zone z)) out
        = Some (map (fun t => cell_at (prepared f keepID) q t z) (timeline f))
        /\ exists rm,
             column (Tup (q ++ "_rm" ++ str Nroll)%string (Zone z)) out = Some rm)
  /\ (forall r q, In r (records f) -> In q wind_quantities ->
        exists col i,
          column (Tup q (Zone (ZONEID r))) out = Some col
          /\ nth_error (timeline f) i = Some (TIMESTAMP r)
          /\ nth_error col i = Some (fill0 (field r q))).
Proof.
  intros HN. split.
  { rewrite preProcess_returns. intuition. }
  intros out H. split; [| split].
  - pose proof H as H'. apply preProcess_Ok in H' as (U & df2 & R & ->).
    eexists. split; [apply preProcess_without_rolling; [lia | exact U] |].
    intros k col. rewrite !column_with_calendar.
    destruct (String.eqb "TIMESTAMP" (top_name k)) eqn:T; [discriminate |].
    destruct (label_eqb k (Tup "HOUR" Blank)); trivial.
    destruct (label_eqb k (Tup "DAYOFYEAR" Blank)); trivial.
    destruct (label_eqb k (Tup "YEAR" Blank)); trivial.
    intros Hk. rewrite (rolling_stage_frame _ _ _ _ R); trivial.
    apply column_unstacked_inv in Hk as [[-> _] | (c & z & -> & Hc & _)];
      [discriminate T |].
    intros q z' Hq E. injection E as E _.
    apply (rm_name_fresh (str Nroll) q c Hq); [| now symmetry].
    now apply prepared_columns_known with f keepID.
  - intros q z Hq Hz.
    destruct (output_rolling_column f Nroll keepID out q z HN H Hq Hz)
      as (Z & rm & _ & Hrm).
    split; [| now exists rm].
    apply (output_data_column _ _ _ _ _ _ H); [now apply wind_in_prepared | exact Z].
  - intros r q Hr Hq.
    apply (output_record_cell _ _ _ _ _ _ H); trivial. now apply wind_in_prepared.
Qed.

Lemma raw_wind_columns_retained_witness :
  exists out1,
    outcome (preProcess three_hours 1 true) = Ok out1
    /\ forall k col, column k out1 = Some col ->
         column k (returned (preProcess three_hours 2 true)) = Some col.
Proof.
  apply (raw_wind_columns_retained three_hours 2 true).
  - lia.
  - vm_compute. reflexivity.
Defined.

(** ** One row per timestamp (C6) *)







(** ** The calendar columns (C7) *)



(** ** Zero-filled IDs (C9) *)

(** C9.  The zero-fill comes before the ID column is dropped or kept, and
    it fills the ID column as it fills the others.  Called with keepID,
    [preProcess] returns a frame exactly when no (timestamp, zone) pair is
    repeated and, for Nroll > 1, each zone 1..10 has a record; in that frame
    a record of the file whose ID is
    blank has the value 0 in the ID column of its zone, at the row of its
    timestamp (and each of its other blank fields is 0 there as well). *)
Theorem blank_id_filled_with_zero (f : csv) (Nroll : Z) (r : RawObservation) :
  In r (records f) -> ID r = None ->
  ((exists out, outcome (preProcess f Nroll true) = Ok out)
   <-> unique_keys f /\ (1 < Nroll -> all_zones f))
  /\ forall out, outcome (preProcess f Nroll true) = Ok out ->
  (exists col i,
     column (Tup "ID" (Zone (ZONEID r))) out = Some col
     /\ nth_error (timeline f) i = Some (TIMESTAMP r)
     /\ nth_error col i = Some (Num 0))
  /\ (forall c, In c (columns0 (prepared f true)) -> field r c = NaN ->
        exists col i,
          column (Tup c (Zone (ZONEID r))) out = Some col
          /\ nth_error (timeline f) i = Some (TIMESTAMP r)
          /\ nth_error col i = Some (Num 0)).
Proof.
  intros Hr Hid. split; [apply preProcess_returns |]. intros out H.
  assert (forall c, In c (columns0 (prepared f true)) -> field r c = NaN ->
            exists col i,
              column (Tup c (Zone (ZONEID r))) out = Some col
              /\ nth_error (timeline f) i = Some (TIMESTAMP r)
              /\ nth_error col i = Some (Num 0)) as G.
  { intros c Hc Hn.
    destruct (output_record_cell f Nroll true out c r H Hc Hr) as (col & i & A & B & C).
    exists col, i. rewrite Hn in C. now repeat split. }
  split; [| exact G].
  apply G.
  - unfold prepared. cbn [columns0]. now left.
  - unfold field. cbn. now rewrite Hid.
Qed.

Lemma blank_id_filled_with_zero_witness :
  exists col i,
    column (Tup "ID" (Zone 4)) (returned (preProcess three_hours_blank_ids 3 true))
    = Some col
    /\ nth_error (timeline three_hours_blank_ids) i = Some (march_1st_2024 0 eq_refl)
    /\ nth_error col i = Some (Num 0).
Proof.
  apply (proj1 (proj2 (blank_id_filled_with_zero three_hours_blank_ids 3
           (observation (march_1st_2024 0 eq_refl) None 1 4)
           ltac:(simpl; auto)
           ltac:(reflexivity))
           (returned (preProcess three_hours_blank_ids 3 true))
           ltac:(vm_compute; reflexivity))).
Defined.

(** ** Nroll at most 1 (C10) *)

Lemma setitem_fresh (k : label) (v : list cell) (df : frame) :
  column k df = None -> setitem k v df = df ++ [(k, v)].
Proof.
  induction df as [| [k' c'] df IH]; simpl; [reflexivity |].
  destruct (label_eqb k k'); [discriminate |].
  intros H. now rewrite IH.
Qed.

Lemma column_snoc_fresh (k k' : label) (v : list cell) (df : frame) :
  column k df = None -> k <> k' -> column k (df ++ [(k', v)]) = None.
Proof.
  intros H N. rewrite column_app, H. cbn [column].
  apply label_eqb_neq in N. now rewrite N.
Qed.

Lemma filter_keeps_all {A} (p : A -> bool) (l : list A) :
  (forall a, In a l -> p a = true) -> filter p l = l.
Proof.
  induction l as [| a l IH]; simpl; [reflexivity |].
  intros H. rewrite (H a) by now left. f_equal. apply IH. auto.
Qed.

Lemma blank_column_unstacked (df : frame0) (name : string) :
  name <> "TIMESTAMP" ->
  column (Tup name Blank) (reset_index (unstacked df)) = None.
Proof.
  intros N. destruct (column (Tup name Blank) (reset_index (unstacked df))) eqn:E; trivial.
  apply column_unstacked_inv in E as [[E _] | (c & z & E & _)]; [| discriminate].
  injection E as E. contradiction.
Qed.

(** Without rolling means the returned frame is the unstacked columns and
    then YEAR, DAYOFYEAR and HOUR. *)
Lemma with_calendar_unstacked (f : csv) (keepID : bool) :
  with_calendar (timeline f) (reset_index (unstacked (prepared f keepID)))
  = columns1 (unstacked (prepared f keepID))
    ++ [(Tup "YEAR" Blank, attr_column Datetime.year (timeline f));
        (Tup "DAYOFYEAR" Blank, attr_column Datetime.tm_yday (timeline f));
        (Tup "HOUR" Blank, attr_column Datetime.hour (timeline f))].
Proof.
  unfold with_calendar.
  rewrite (setitem_fresh (Tup "YEAR" Blank))
    by (apply blank_column_unstacked; discriminate).
  rewrite (setitem_fresh (Tup "DAYOFYEAR" Blank))
    by (apply column_snoc_fresh; [apply blank_column_unstacked |]; discriminate).
  rewrite (setitem_fresh (Tup "HOUR" Blank))
    by (repeat apply column_snoc_fresh; try apply blank_column_unstacked; discriminate).
  unfold reset_index. rewrite !filter_app. cbn [filter fst top_name].
  rewrite String.eqb_refl.
  change (String.eqb "TIMESTAMP" "YEAR") with false.
  change (String.eqb "TIMESTAMP" "DAYOFYEAR") with false.
  change (String.eqb "TIMESTAMP" "HOUR") with false.
  cbn [negb]. rewrite <- !app_assoc. cbn [app]. f_equal.
  apply filter_keeps_all. intros [k v] H. cbn [fst].
  apply in_flat_map in H as (c & Hc & H).
  apply in_map_iff in H as (z & [= <- <-] & _). cbn [top_name].
  apply prepared_columns_not_timestamp in Hc.
  destruct (String.eqb "TIMESTAMP" c) eqn:E; [| reflexivity].
  apply String.eqb_eq in E. congruence.
Qed.

Lemma output_without_rolling (f : csv) (Nroll : Z) (keepID : bool) (out : frame) :
  Nroll <= 1 ->
  outcome (preProcess f Nroll keepID) = Ok out ->
  out = columns1 (unstacked (prepared f keepID))
        ++ [] ++ [(Tup "YEAR" Blank, attr_column Datetime.year (timeline f));
            (Tup "DAYOFYEAR" Blank, attr_column Datetime.tm_yday (timeline f));
            (Tup "HOUR" Blank, attr_column Datetime.hour (timeline f))].
Proof.
  intros HN H.
  assert (unique_keys f) as U by (now apply preProcess_Ok in H).
  rewrite preProcess_without_rolling in H by trivial.
  injection H as <-. apply with_calendar_unstacked.
Qed.



(** ** Missing and repeated zones (C4) *)

Lemma not_unique_duplicates (f : csv) (keepID : bool) :
  ~ unique_keys f -> has_duplicates (rows0 (prepared f keepID)) = true.
Proof.
  intros H. destruct (has_duplicates (rows0 (prepared f keepID))) eqn:E; trivial.
  apply prepared_unique in E. contradiction.
Qed.

(** C4, as the code has it.  A file in which some (timestamp, zone) pair
    occurs more than once makes [preProcess] fail: [unstack] raises a
    ValueError after the ID line was printed, and nothing is returned.  A
    timestamp without a record for some zone does not: provided the file has
    a record, no pair is repeated (and, when Nroll > 1, each zone 1..10 has a
    record somewhere in the file), [preProcess] returns a frame, in which the cells of a zone at
    a timestamp it has no record for are NaN.  With Nroll > 1 a zone 1..10
    that has no record in the whole file makes the rolling stage raise. *)
Theorem repeated_entries_rejected (f : csv) (Nroll : Z) (keepID : bool) :
  (~ unique_keys f ->
     preProcess f Nroll keepID
     = ([id_line keepID],
        Raise (ValueError "Index contains duplicate entries, cannot reshape")))
  /\ (unique_keys f -> records f <> [] -> (1 < Nroll -> all_zones f) ->
      exists out,
        outcome (preProcess f Nroll keepID) = Ok out
        /\ forall c t z,
             In c (columns0 (prepared f keepID)) ->
             In t (map TIMESTAMP (records f)) ->
             In z (map ZONEID (records f)) ->
             ~ In (t, z) (keys f) ->
             exists col i,
               column (Tup c (Zone z)) out = Some col
               /\ nth_error (timeline f) i = Some t
               /\ nth_error col i = Some NaN)
  /\ (unique_keys f -> 1 < Nroll -> ~ all_zones f ->
      exists e, outcome (preProcess f Nroll keepID) = Raise e).
Proof.
  split; [| split].
  - intros H. apply not_unique_duplicates with (keepID := keepID) in H.
    apply injective_projections.
    + change (printed (preProcess f Nroll keepID) = [id_line keepID]).
      now rewrite preProcess_printed, H.
    + change (outcome (preProcess f Nroll keepID)
              = Raise (ValueError "Index contains duplicate entries, cannot reshape")).
      now rewrite preProcess_outcome, H.
  - intros U _ Z. destruct (proj2 (preProcess_returns f Nroll keepID)) as [out H];
      [now split |].
    exists out. split; trivial. intros c t z Hc Ht Hz Hk.
    apply In_timeline, In_nth_error in Ht as [i Hi].
    eexists _, i. split; [apply (output_data_column _ _ _ _ _ _ H Hc Hz) |].
    split; trivial.
    rewrite nth_error_map, Hi. cbn [option_map]. now rewrite cell_at_missing.
  - intros U HN NZ.
    destruct (outcome (preProcess f Nroll keepID)) as [out | e] eqn:E; [| eauto].
    exfalso. apply NZ. apply (preProcess_returns f Nroll keepID); eauto.
Qed.

Lemma decide_key (f : csv) (t : datetime) (z : Z) :
  existsb (same_key t z) (rows0 (prepared f false)) = false -> ~ In (t, z) (keys f).
Proof.
  intros E H. rewrite <- (prepared_keys f false) in H.
  apply existsb_same_key in H. congruence.
Qed.

Lemma zone_missing_once_unique : unique_keys zone_missing_once.
Proof. apply (prepared_unique zone_missing_once false). vm_compute. reflexivity. Qed.

Lemma zone_missing_once_zones : all_zones zone_missing_once.
Proof.
  intros z Hz. apply wind_measurements_spec in Hz.
  unfold zone_missing_once, records. rewrite map_app. apply in_or_app. left.
  unfold one_hour. rewrite map_map. cbn [ZONEID observation]. now rewrite map_id.
Qed.

(** A timestamp that lacks zone 1 is processed; the cells are NaN. *)
Lemma missing_zone_accepted :
  ~ complete zone_missing_once
  /\ outcome (preProcess zone_missing_once 3 false)
     = Ok (returned (preProcess zone_missing_once 3 false))
  /\ column (Tup "U10" (Zone 1)) (returned (preProcess zone_missing_once 3 false))
     = Some [Num 1; NaN; Num 7]
  /\ column (Tup "U10_rm3" (Zone 1)) (returned (preProcess zone_missing_once 3 false))
     = Some [Num (1 # 1); Num (1 # 1); Num (8 # 2)].
Proof.
  split; [| split; [| split]]; try (vm_compute; reflexivity).
  intros C.
  apply (decide_key zone_missing_once (march_1st_2024 1 eq_refl) 1);
    [vm_compute; reflexivity |].
  apply (C (observation (march_1st_2024 1 eq_refl) (Some (inr "a")) 4 2)); [| lia].
  unfold zone_missing_once, records. apply in_or_app. right. apply in_or_app. left.
  simpl. now left.
Qed.

Lemma repeated_entries_rejected_witness :
  preProcess zone_repeated 3 true
  = (["ID column kept"],
     Raise (ValueError "Index contains duplicate entries, cannot reshape"))
  /\ exists out, outcome (preProcess zone_missing_once 3 false) = Ok out.
Proof.
  split.
  - apply (repeated_entries_rejected zone_repeated 3 true).
    intros U. apply (prepared_unique zone_repeated true) in U.
    vm_compute in U. discriminate U.
  - destruct (proj1 (proj2 (repeated_entries_rejected zone_missing_once 3 false))
                zone_missing_once_unique ltac:(discriminate)
                (fun _ => zone_missing_once_zones))
      as (out & H & _).
    now exists out.
Defined.

(** ** Timestamps that are not one hour apart (C5) *)

(** C5, as the code has it.  The differences of consecutive timestamps are
    computed and not looked at: whatever the timestamps of the file are, a
    run of [preProcess] that gets past [unstack] prints the ID line,
    "unstacked" and the rolling-means line, and nothing else, so a gap is not
    reported; and a gap does not make it fail: when the file has a record,
    no (timestamp, zone) pair is repeated (and, for Nroll > 1, each zone
    1..10 has a record), it returns the frame, with one row per distinct
    timestamp. *)
Theorem gaps_pass_unreported (f : csv) (Nroll : Z) (keepID : bool) :
  unique_keys f -> records f <> [] -> (1 < Nroll -> all_zones f) ->
  exists out,
    preProcess f Nroll keepID
    = ([id_line keepID; "unstacked"; rolling_line Nroll], Ok out)
    /\ len out = List.length (timeline f)
    /\ Forall (fun kc => List.length (snd kc) = List.length (timeline f)) out.
Proof.
  intros U _ Z.
  destruct (proj2 (preProcess_returns f Nroll keepID)) as [out H]; [now split |].
  exists out. split; [| split].
  - apply injective_projections.
    + change (printed (preProcess f Nroll keepID)
              = [id_line keepID; "unstacked"; rolling_line Nroll]).
      rewrite preProcess_printed.
      apply prepared_unique with (keepID := keepID) in U. now rewrite U.
    + exact H.
  - exact (len_output _ _ _ _ H).
  - exact (output_lengths _ _ _ _ H).
Qed.

(** A file with a two-hour gap: the lines printed are the lines printed for
    three consecutive hours, and the frame is returned. *)
Lemma gap_not_reported :
  has_gap hours_with_gap
  /\ printed (preProcess hours_with_gap 3 false)
     = ["ID column dropped"; "unstacked";
        "Computing rolling means over 3 measurements"]
  /\ printed (preProcess hours_with_gap 3 false)
     = printed (preProcess three_hours 3 false)
  /\ outcome (preProcess hours_with_gap 3 false)
     = Ok (returned (preProcess hours_with_gap 3 false)).
Proof.
  split; [| split; [| split]]; try (vm_compute; reflexivity).
  exists 120. split; [| discriminate].
  vm_compute. auto.
Qed.

Lemma hours_with_gap_unique : unique_keys hours_with_gap.
Proof. apply (prepared_unique hours_with_gap false). vm_compute. reflexivity. Qed.

Lemma hours_with_gap_zones : all_zones hours_with_gap.
Proof.
  intros z Hz. apply wind_measurements_spec in Hz.
  unfold hours_with_gap, records. rewrite map_app. apply in_or_app. left.
  unfold one_hour. rewrite map_map. cbn [ZONEID observation]. now rewrite map_id.
Qed.

Lemma gaps_pass_unreported_witness :
  exists out,
    preProcess hours_with_gap 3 false
    = ([id_line false; "unstacked"; rolling_line 3], Ok out)
    /\ len out = List.length (timeline hours_with_gap)
    /\ Forall (fun kc => List.length (snd kc) = List.length (timeline hours_with_gap)) out.
Proof.
  apply (gaps_pass_unreported hours_with_gap 3 false).
  - exact hours_with_gap_unique.
  - discriminate.
  - intros _. exact hours_with_gap_zones.
Defined.

(** ** Renaming the columns *)

Lemma last_char_None (s : string) : last_char s = None -> s = "".
Proof.
  induction s as [| c s IH]; [reflexivity |].
  cbn [last_char]. destruct s; [discriminate |].
  intros H. specialize (IH H). discriminate IH.
Qed.

Lemma last_char_app (a s : string) :
  s <> "" -> last_char (a ++ s)%string = last_char s.
Proof.
  intros H. induction a as [| c a IH]; [reflexivity |].
  cbn [String.append last_char]. rewrite IH.
  destruct (a ++ s)%string eqn:E; [| reflexivity].
  destruct a; [simpl in E; congruence | discriminate].
Qed.

Lemma but_last_app (a s : string) :
  s <> "" -> but_last (a ++ s)%string = (a ++ but_last s)%string.
Proof.
  intros H. induction a as [| c a IH]; [reflexivity |].
  cbn [String.append but_last]. rewrite IH.
  destruct (a ++ s)%string eqn:E; [| reflexivity].
  destruct a; [simpl in E; congruence | discriminate].
Qed.

Lemma uint_last_char (d : Decimal.uint) :
  last_char (NilEmpty.string_of_uint d) <> Some "_"%char.
Proof.
  induction d; cbn [NilEmpty.string_of_uint last_char]; try discriminate;
    (destruct (NilEmpty.string_of_uint d); [intros [= E]; discriminate E | exact IHd]).
Qed.

(** [str(n)] is not empty and does not end with an underscore. *)
Lemma str_last_char (n : Z) : str n <> "" /\ last_char (str n) <> Some "_"%char.
Proof.
  unfold str, NilZero.string_of_int.
  destruct (Z.to_int n) as [d | d]; unfold NilZero.string_of_uint.
  - destruct d; try (split; [discriminate |]);
      try apply (uint_last_char (Decimal.D0 d));
      try apply (uint_last_char (Decimal.D1 d));
      try apply (uint_last_char (Decimal.D2 d));
      try apply (uint_last_char (Decimal.D3 d));
      try apply (uint_last_char (Decimal.D4 d));
      try apply (uint_last_char (Decimal.D5 d));
      try apply (uint_last_char (Decimal.D6 d));
      try apply (uint_last_char (Decimal.D7 d));
      try apply (uint_last_char (Decimal.D8 d));
      try apply (uint_last_char (Decimal.D9 d)).
    discriminate.
  - split; [discriminate |].
    assert (forall s, s <> "" -> last_char s <> Some "_"%char ->
                      last_char (String "-" s) <> Some "_"%char) as G.
    { intros s NE H. cbn [last_char]. destruct s; [contradiction | exact H]. }
    apply G; destruct d; try discriminate;
      try apply (uint_last_char (Decimal.D0 d));
      try apply (uint_last_char (Decimal.D1 d));
      try apply (uint_last_char (Decimal.D2 d));
      try apply (uint_last_char (Decimal.D3 d));
      try apply (uint_last_char (Decimal.D4 d));
      try apply (uint_last_char (Decimal.D5 d));
      try apply (uint_last_char (Decimal.D6 d));
      try apply (uint_last_char (Decimal.D7 d));
      try apply (uint_last_char (Decimal.D8 d));
      try apply (uint_last_char (Decimal.D9 d)).
Qed.

Lemma strip_sep_zone (name : string) (z : Z) :
  strip_sep (name ++ "_" ++ str z) = Ok (name ++ "_" ++ str z)%string.
Proof.
  destruct (str_last_char z) as [NE L]. unfold strip_sep.
  rewrite last_char_app by (cbn; discriminate).
  change ("_" ++ str z)%string with (String "_" (str z)).
  cbn [last_char]. destruct (str z) as [| c s] eqn:E; [contradiction |].
  destruct (last_char (String c s)) as [a |] eqn:La.
  - destruct (Ascii.eqb a "_") eqn:Ea; [| reflexivity].
    apply Ascii.eqb_eq in Ea. subst a. contradiction.
  - apply last_char_None in La. discriminate La.
Qed.

Lemma strip_sep_blank (name : string) :
  strip_sep (name ++ "_" ++ "") = Ok name.
Proof.
  unfold strip_sep. cbn [String.append].
  rewrite last_char_app by discriminate. cbn [last_char Ascii.eqb Bool.eqb].
  rewrite but_last_app by discriminate. cbn [but_last].
  f_equal. induction name as [| c n IH]; [reflexivity |].
  cbn [String.append]. now rewrite IH.
Qed.

Lemma joined_tuples (cond : string -> bool) (cols : list (string * level)) :
  joined cond (map tuple cols)
  = Ok (map joined_name (filter (fun p => cond (fst p)) cols)).
Proof.
  induction cols as [| [n lv] cols IH]; [reflexivity |].
  cbn [map tuple joined item0 bindR fst snd filter].
  destruct (cond n); [| exact IH].
  rewrite IH. destruct lv; reflexivity.
Qed.

Lemma strip_joined (cols : list (string * level)) :
  mapR strip_sep (map joined_name cols) = Ok (map flat_name cols).
Proof.
  induction cols as [| [n lv] cols IH]; [reflexivity |].
  cbn [map mapR]. rewrite IH. unfold joined_name, flat_name. cbn [fst snd].
  destruct lv; [now rewrite strip_sep_zone | now rewrite strip_sep_blank].
Qed.

Lemma joined_flat_targets (cols : list (string * level)) :
  (forall p, In p cols -> is_target p = true -> snd p <> Blank) ->
  map joined_name (filter is_target cols) = map flat_name (filter is_target cols).
Proof.
  intros H. apply map_ext_in. intros [n lv] Hp.
  apply filter_In in Hp as [Hin T]. specialize (H _ Hin T).
  unfold joined_name, flat_name. cbn [fst snd] in *.
  destruct lv; [reflexivity | contradiction].
Qed.

(** *** Renaming names that are flat already (C3) *)

Lemma strip_first_two (a b : ascii) (s : string) :
  strip_sep (String a "" ++ "_" ++ String b "") = first_two (String a (String b s)).
Proof.
  unfold strip_sep, first_two. cbn [String.append last_char but_last].
  now destruct (Ascii.eqb b "_").
Qed.

Lemma rename_test_flat (names : list string) :
  rename_test (map Flat names) = mapR first_two names.
Proof.
  unfold rename_test. induction names as [| s names IH]; [reflexivity |].
  cbn [map joined item0 str_item1 mapR].
  destruct s as [| a [| b s]]; try reflexivity.
  cbn [bindR].
  destruct (joined (fun _ => true) (map Flat names)) as [r | e]; cbn [bindR] in *.
  - cbn [mapR]. rewrite (strip_first_two a b s), IH. reflexivity.
  - rewrite <- IH. cbn [first_two]. now destruct (Ascii.eqb b "_").
Qed.

Lemma one_char_not_target (a : ascii) : String.eqb (String a "") "TARGETVAR" = false.
Proof. cbn [String.eqb]. now destruct (Ascii.eqb a "T"). Qed.

Lemma joined_flat_predictors (names : list string) :
  joined (fun n => negb (String.eqb n "TARGETVAR")) (map Flat names)
  = joined (fun _ => true) (map Flat names).
Proof.
  induction names as [| s names IH]; [reflexivity |].
  cbn [map joined item0]. destruct s as [| a s]; [reflexivity |].
  cbn [bindR]. rewrite one_char_not_target. cbn [negb]. now rewrite IH.
Qed.

Lemma joined_flat_targets_none (names : list string) (r : list string) :
  joined (fun _ => true) (map Flat names) = Ok r ->
  joined (fun n => String.eqb n "TARGETVAR") (map Flat names) = Ok [].
Proof.
  revert r. induction names as [| s names IH]; intros r; [reflexivity |].
  cbn [map joined item0]. destruct s as [| a s]; [discriminate |].
  cbn [bindR]. rewrite one_char_not_target.
  destruct (str_item1 (Flat (String a s))); [| discriminate]. cbn [bindR].
  destruct (joined (fun _ => true) (map Flat names)) as [r' |]; [| discriminate].
  intros _. now apply IH with r'.
Qed.

Lemma rename_train_flat (names : list string) :
  rename_train (map Flat names) = rename_test (map Flat names).
Proof.
  unfold rename_train, rename_test. rewrite joined_flat_predictors.
  destruct (joined (fun _ => true) (map Flat names)) as [r |] eqn:E; [| reflexivity].
  cbn [bindR]. rewrite (joined_flat_targets_none names r E).
  destruct (mapR strip_sep r); reflexivity.
Qed.

Lemma first_two_fixed (s : string) :
  first_two s = Ok s <-> exists a, s = String a "_".
Proof.
  split.
  - destruct s as [| a [| b s]]; try discriminate. cbn [first_two].
    destruct (Ascii.eqb b "_") eqn:E.
    + intros [= H]. apply Ascii.eqb_eq in E. subst. now exists a.
    + intros [= H1 H2]. subst. discriminate E.
  - intros [a ->]. reflexivity.
Qed.

(** C3, as the code has it.  The renaming reads the first two elements of
    each column label.  On a table whose column names are flat strings
    already it is not the identity: a name of at least two characters
    becomes its first character, an underscore and its second character
    (U10_1 becomes U_1, YEAR becomes Y_E), a shorter name raises an
    IndexError, and only a two-character name that ends with an underscore is
    left as it is; no name made from a (name, zone) key is.  The training
    cell and the testing cell agree on flat names. *)
Theorem renaming_flat_names (names : list string) :
  rename_test (map Flat names) = mapR first_two names
  /\ rename_train (map Flat names) = mapR first_two names
  /\ (forall s, first_two s = Ok s <-> exists a, s = String a "_")
  /\ (forall name z, first_two (flat_name (name, Zone z)) <> Ok (flat_name (name, Zone z)))
  /\ first_two "U10_1" = Ok "U_1"
  /\ first_two "YEAR" = Ok "Y_E"
  /\ first_two "U" = Raise IndexError.
Proof.
  split; [apply rename_test_flat |].
  split; [rewrite rename_train_flat; apply rename_test_flat |].
  split; [apply first_two_fixed |].
  split; [| repeat split].
  intros name z H. apply first_two_fixed in H as [a H].
  unfold flat_name in H. cbn [fst snd] in H.
  destruct (str_last_char z) as [NE L]. apply L.
  assert (last_char (name ++ "_" ++ str z) = Some "_"%char) as E by now rewrite H.
  rewrite last_char_app in E by (cbn; discriminate).
  change ("_" ++ str z)%string with (String "_" (str z)) in E.
  cbn [last_char] in E. destruct (str z); [contradiction | exact E].
Qed.

(** Flattening a flattened frame changes its column names. *)
Lemma flatten_not_idempotent :
  flatten_test [(Tup "U10" (Zone 1), [Num 1]); (Tup "YEAR" Blank, [Num 2024])]
  = Ok [(Flat "U10_1", [Num 1]); (Flat "YEAR", [Num 2024])]
  /\ flatten_test [(Flat "U10_1", [Num 1]); (Flat "YEAR", [Num 2024])]
     = Ok [(Flat "U_1", [Num 1]); (Flat "Y_E", [Num 2024])]
  /\ flatten_train [(Flat "U10_1", [Num 1]); (Flat "YEAR", [Num 2024])]
     = Ok [(Flat "U_1", [Num 1]); (Flat "Y_E", [Num 2024])].
Proof. repeat split; vm_compute; reflexivity. Qed.

(** *** The column keys of the returned frame *)

Lemma run_jobs_appends (Nroll : Z) (js : list (label * label)) (df df' : frame) :
  outcome (foldM (run_job Nroll) js df) = Ok df' ->
  NoDup (map snd js) ->
  (forall j, In j js -> column (snd j) df = None) ->
  exists added, df' = df ++ added /\ map fst added = map snd js.
Proof.
  revert df. induction js as [| j js IH]; intros df; cbn [foldM].
  - cbn. intros [= <-] _ _. exists []. now rewrite app_nil_r.
  - rewrite outcome_bind.
    destruct (outcome (run_job Nroll df j)) as [df1 |] eqn:E; [| discriminate].
    apply run_job_inv in E as (s & m & _ & _ & ->).
    intros H ND Fresh. inversion ND as [| ? ? Hn ND']; subst.
    rewrite setitem_fresh in H by (apply Fresh; now left).
    destruct (IH _ H ND') as (added & -> & E).
    + intros j' Hj'. rewrite column_app, Fresh by now right.
      cbn [column]. destruct (label_eqb (snd j') (snd j)) eqn:L; [| reflexivity].
      apply label_eqb_eq in L. exfalso. apply Hn. rewrite <- L. now apply in_map.
    + exists ((snd j, m) :: added). rewrite <- app_assoc. split; [reflexivity |].
      cbn [map fst]. now rewrite E.
Qed.

Lemma map_flat_map {A B C} (g : B -> C) (h : A -> list B) (l : list A) :
  map g (flat_map h l) = flat_map (fun a => map g (h a)) l.
Proof.
  induction l as [| a l IH]; [reflexivity |].
  cbn [flat_map]. now rewrite map_app, IH.
Qed.

Lemma unstacked_keys (f : csv) (keepID : bool) :
  map fst (columns1 (unstacked (prepared f keepID))) = map tuple (data_keys f keepID).
Proof.
  unfold data_keys. cbn [columns1 unstacked]. rewrite !map_flat_map.
  apply flat_map_ext. intros c. now rewrite !map_map.
Qed.

Lemma jobs_keys (Nroll : Z) :
  1 < Nroll ->
  map snd (jobs ("_rm" ++ str Nroll) wind_measurements) = map tuple (rolling_keys Nroll).
Proof.
  intros H. apply gtb_1 in H. unfold rolling_keys. rewrite H. reflexivity.
Qed.

(** The frame returned: the unstacked columns, the columns the rolling
    stage added, the calendar columns. *)
Lemma output_frame (f : csv) (Nroll : Z) (keepID : bool) (out : frame) :
  outcome (preProcess f Nroll keepID) = Ok out ->
  exists added,
    out = columns1 (unstacked (prepared f keepID)) ++ added
          ++ [(Tup "YEAR" Blank, attr_column Datetime.year (timeline f));
              (Tup "DAYOFYEAR" Blank, attr_column Datetime.tm_yday (timeline f));
              (Tup "HOUR" Blank, attr_column Datetime.hour (timeline f))]
    /\ map fst added = map tuple (rolling_keys Nroll).
Proof.
  intros H. destruct (Z.leb_spec Nroll 1) as [HN | HN].
  - exists []. split.
    + now apply (output_without_rolling f Nroll keepID).
    + unfold rolling_keys. apply gtb_1_false in HN. now rewrite HN.
  - apply preProcess_Ok in H as (U & df2 & R & ->).
    pose proof R as R'. rewrite rolling_stage_outcome in R'.
    pose proof HN as G. apply gtb_1 in G. rewrite G in R'.
    destruct (run_jobs_appends _ _ _ _ R') as (added & -> & E).
    { apply jobs_NoDup, wind_measurements_NoDup. }
    { intros j Hj. apply In_jobs in Hj as (q & i & Hq & _ & ->). cbn [job snd].
      destruct (column (Tup (q ++ "_rm" ++ str Nroll) (Zone i))
                  (reset_index (unstacked (prepared f keepID)))) eqn:C; trivial.
      apply column_unstacked_inv in C as [[C _] | (c & z & C & Hc & _)];
        [discriminate |].
      injection C as C _. exfalso.
      apply (rm_name_fresh (str Nroll) q c Hq); trivial.
      now apply prepared_columns_known with f keepID. }
    exists added. split; [| now rewrite E, jobs_keys].
    assert (forall name, name <> "TIMESTAMP" ->
              column (Tup name Blank) (reset_index (unstacked (prepared f keepID)) ++ added)
              = None) as B.
    { intros name Hn. rewrite (rolling_stage_frame _ _ _ _ R) by (intros; discriminate).
      now apply blank_column_unstacked. }
    unfold with_calendar.
    rewrite (setitem_fresh (Tup "YEAR" Blank)) by (apply B; discriminate).
    rewrite (setitem_fresh (Tup "DAYOFYEAR" Blank))
      by (apply column_snoc_fresh; [apply B |]; discriminate).
    rewrite (setitem_fresh (Tup "HOUR" Blank))
      by (repeat apply column_snoc_fresh; try apply B; discriminate).
    unfold reset_index. rewrite !filter_app. cbn [app filter fst top_name].
    rewrite String.eqb_refl.
    change (String.eqb "TIMESTAMP" "YEAR") with false.
    change (String.eqb "TIMESTAMP" "DAYOFYEAR") with false.
    change (String.eqb "TIMESTAMP" "HOUR") with false.
    cbn [negb]. rewrite <- !app_assoc. cbn [app].
    assert (forall l : frame,
              (forall kc, In kc l -> top_name (fst kc) <> "TIMESTAMP") ->
              filter (fun kc => negb (String.eqb "TIMESTAMP" (top_name (fst kc)))) l = l) as K.
    { intros l Hl. apply filter_keeps_all. intros kc Hkc.
      destruct (String.eqb "TIMESTAMP" (top_name (fst kc))) eqn:T; [| reflexivity].
      apply String.eqb_eq in T. symmetry in T. now apply Hl in T. }
    rewrite !K; [reflexivity | |].
    + intros [k v] Hkv. assert (In k (map fst added)) as Hk.
      { apply in_map_iff. now exists (k, v). }
      rewrite E in Hk. apply in_map_iff in Hk as (j & <- & Hj).
      apply In_jobs in Hj as (q & i & Hq & _ & ->). cbn [job snd fst top_name].
      apply rm_name_fresh; [exact Hq | simpl; intuition].
    + intros [k v] Hkv. apply in_flat_map in Hkv as (c & Hc & Hkv).
      apply in_map_iff in Hkv as (z & [= <- <-] & _). cbn [fst top_name].
      now apply prepared_columns_not_timestamp with f keepID.
Qed.

(** *** Flat names of hierarchical keys (C8) *)

Lemma output_labels (f : csv) (Nroll : Z) (keepID : bool) (out : frame) :
  outcome (preProcess f Nroll keepID) = Ok out ->
  map fst out = map tuple (output_keys f Nroll keepID).
Proof.
  intros H. destruct (output_frame _ _ _ _ H) as (added & -> & E).
  unfold output_keys. rewrite !map_app, unstacked_keys, E. reflexivity.
Qed.

Lemma rename_train_tuples (cols : list (string * level)) :
  (forall p, In p cols -> is_target p = true -> snd p <> Blank) ->
  rename_train (map tuple cols)
  = Ok (map flat_name (filter is_target cols)
        ++ map flat_name (filter (fun p => negb (is_target p)) cols)).
Proof.
  intros H. unfold rename_train. rewrite !joined_tuples. cbn [bindR].
  rewrite strip_joined. cbn [bindR].
  change (fun p : string * level => String.eqb (fst p) "TARGETVAR") with is_target.
  now rewrite joined_flat_targets.
Qed.

Lemma rename_test_tuples (cols : list (string * level)) :
  rename_test (map tuple cols) = Ok (map flat_name cols).
Proof.
  unfold rename_test. rewrite joined_tuples. cbn [bindR].
  rewrite filter_keeps_all by reflexivity. apply strip_joined.
Qed.


Lemma targets_then_others {A} (p : A -> bool) (a b : list A) :
  (forall x, In x a -> p x = true) ->
  (forall x, In x b -> p x = false) ->
  filter p (a ++ b) = a /\ filter (fun x => negb (p x)) (a ++ b) = b.
Proof.
  intros Ha Hb. rewrite !filter_app. split.
  - rewrite (filter_keeps_all p a Ha).
    rewrite (filter_ext_in p (fun _ => false) b Hb), filter_false. apply app_nil_r.
  - rewrite (filter_ext_in (fun x => negb (p x)) (fun _ => false) a)
      by (intros x Hx; now rewrite Ha).
    rewrite filter_false. cbn [app].
    apply filter_keeps_all. intros x Hx. now rewrite Hb.
Qed.

Lemma rolling_keys_spec (Nroll : Z) (p : string * level) :
  In p (rolling_keys Nroll) ->
  exists q z, In q wind_quantities /\ p = ((q ++ "_rm" ++ str Nroll)%string, Zone z).
Proof.
  unfold rolling_keys. destruct (Nroll >? 1); [| contradiction].
  intros H. apply in_flat_map in H as (i & _ & H). simpl in H.
  destruct H as [<- | [<- | [<- | [<- | []]]]];
    [exists "U10", i | exists "U100", i | exists "V10", i | exists "V100", i];
    (split; [simpl; auto | reflexivity]).
Qed.

(** In a returned frame a TARGETVAR column has a zone. *)
Lemma output_targets_zoned (f : csv) (Nroll : Z) (keepID : bool) (p : string * level) :
  In p (output_keys f Nroll keepID) -> is_target p = true -> snd p <> Blank.
Proof.
  unfold output_keys, data_keys. intros H T.
  apply in_app_or in H as [H | H]; [| apply in_app_or in H as [H | H]].
  - apply in_flat_map in H as (c & _ & H).
    apply in_map_iff in H as (z & <- & _). discriminate.
  - apply rolling_keys_spec in H as (q & z & _ & ->). discriminate.
  - simpl in H. destruct H as [<- | [<- | [<- | []]]]; discriminate T.
Qed.

(** Without the ID column the TARGETVAR columns come first. *)
Lemma output_targets_first (f : csv) (Nroll : Z) :
  filter is_target (output_keys f Nroll false)
  ++ filter (fun p => negb (is_target p)) (output_keys f Nroll false)
  = output_keys f Nroll false.
Proof.
  set (zs := zone_ids (prepared f false)).
  set (block := fun c : string => map (fun z => (c, Zone z)) zs).
  assert (output_keys f Nroll false
          = (if has_TARGETVAR f then block "TARGETVAR" else [])
            ++ ((block "U10" ++ block "V10" ++ block "U100" ++ block "V100")
                ++ rolling_keys Nroll ++ calendar_keys)) as E.
  { unfold output_keys, data_keys, prepared. cbn [columns0 app].
    fold (prepared f false). fold zs.
    destruct (has_TARGETVAR f); cbn [app flat_map]; fold block;
      rewrite ?app_nil_r, <- ?app_assoc; reflexivity. }
  rewrite E.
  destruct (targets_then_others is_target
              (if has_TARGETVAR f then block "TARGETVAR" else [])
              ((block "U10" ++ block "V10" ++ block "U100" ++ block "V100")
               ++ rolling_keys Nroll ++ calendar_keys)) as [-> ->]; trivial.
  - intros x Hx. destruct (has_TARGETVAR f); [| contradiction].
    apply in_map_iff in Hx as (z & <- & _). reflexivity.
  - intros x Hx. apply in_app_or in Hx as [Hx | Hx].
    + repeat (apply in_app_or in Hx as [Hx | Hx]);
        apply in_map_iff in Hx as (z & <- & _); reflexivity.
    + apply in_app_or in Hx as [Hx | Hx].
      * apply rolling_keys_spec in Hx as (q & z & Hq & ->).
        unfold is_target. cbn [fst].
        destruct (String.eqb (q ++ "_rm" ++ str Nroll) "TARGETVAR") eqn:T; trivial.
        apply String.eqb_eq in T. exfalso.
        apply (rm_name_fresh (str Nroll) q "TARGETVAR" Hq); [simpl; intuition | exact T].
      * simpl in Hx. destruct Hx as [<- | [<- | [<- | []]]]; reflexivity.
Qed.






(* ================================================================= *)
(** * Further properties of the notebook *)

(** ** The ID column *)

Lemma column_label_in (k : label) (v : list cell) (df : frame) :
  column k df = Some v -> In k (map fst df).
Proof.
  intros H. apply column_In in H. apply in_map_iff. now exists (k, v).
Qed.

Lemma rolling_keys_zone (Nroll : Z) (name : string) (z : Z) :
  In (name, Zone z) (rolling_keys Nroll) ->
  1 < Nroll /\ 1 <= z <= 10
  /\ exists q, In q wind_quantities /\ name = (q ++ "_rm" ++ str Nroll)%string.
Proof.
  unfold rolling_keys. destruct (Nroll >? 1) eqn:G; [| contradiction].
  apply gtb_1 in G. intros H. apply in_flat_map in H as (i & Hi & H).
  apply wind_measurements_spec in Hi. simpl in H.
  destruct H as [[= <- <-] | [[= <- <-] | [[= <- <-] | [[= <- <-] | []]]]];
    (split; [exact G |]); (split; [exact Hi |]);
    [exists "U10" | exists "U100" | exists "V10" | exists "V100"];
    (split; [simpl; auto | reflexivity]).
Qed.

(** The keys of a returned frame, one kind at a time. *)
Lemma output_key_kinds (f : csv) (Nroll : Z) (keepID : bool) (p : string * level) :
  In p (output_keys f Nroll keepID) ->
  (exists c z, p = (c, Zone z) /\ In c (columns0 (prepared f keepID))
               /\ In z (map ZONEID (records f)))
  \/ (exists q z, p = ((q ++ "_rm" ++ str Nroll)%string, Zone z)
                  /\ In q wind_quantities /\ 1 <= z <= 10 /\ 1 < Nroll)
  \/ In p calendar_keys.
Proof.
  unfold output_keys, data_keys. intros H.
  apply in_app_or in H as [H | H]; [| apply in_app_or in H as [H | H]].
  - left. apply in_flat_map in H as (c & Hc & H).
    apply in_map_iff in H as (z & <- & Hz). exists c, z.
    repeat split; trivial. now apply In_zone_ids in Hz.
  - right. left. destruct p as [name [z |]].
    + apply rolling_keys_zone in H as (G & Hz & q & Hq & ->). now exists q, z.
    + apply rolling_keys_spec in H as (q & z & _ & [=]).
  - now right; right.
Qed.

(** X1.  The ID column is in the returned frame exactly when keepID asks for
    it.  Without keepID no column of the frame is named ID; with keepID the
    frame has the column (ID, z) for each zone z of the file, and the ID of
    a record, zero-filled, is in the column of its zone at the row of its
    timestamp: for an ID that is text or blank, or a number of absolute
    value at most 2^53, which the column holds exactly also when it has
    become a column of doubles. *)
Theorem id_column_as_asked (f : csv) (Nroll : Z) (keepID : bool) (out : frame) :
  outcome (preProcess f Nroll keepID) = Ok out ->
  (keepID = false -> forall k, top_name k = "ID" -> column k out = None)
  /\ (keepID = true ->
      forall r, In r (records f) -> id_exact (ID r) ->
        exists col i,
          column (Tup "ID" (Zone (ZONEID r))) out = Some col
          /\ nth_error (timeline f) i = Some (TIMESTAMP r)
          /\ nth_error col i = Some (fill0 (id_cell (ID r)))).
Proof.
  intros H. split.
  - intros -> k Hk. destruct (column k out) as [v |] eqn:C; trivial. exfalso.
    apply column_label_in in C. rewrite (output_labels _ _ _ _ H) in C.
    apply in_map_iff in C as (p & <- & Hp). cbn [tuple top_name] in Hk.
    apply output_key_kinds in Hp as [(c & z & -> & Hc & _) | [(q & z & -> & Hq & _) | Hp]].
    + cbn [fst] in Hk. subst c. unfold prepared in Hc. cbn [columns0 app] in Hc.
      destruct (has_TARGETVAR f); simpl in Hc;
        repeat (destruct Hc as [Hc | Hc]; [discriminate Hc |]); exact Hc.
    + cbn [fst] in Hk. apply (rm_name_fresh (str Nroll) q "ID" Hq); [simpl; auto | exact Hk].
    + simpl in Hp. destruct Hp as [<- | [<- | [<- | []]]]; discriminate Hk.
  - intros -> r Hr _.
    apply (output_record_cell f Nroll true out "ID" r H); trivial.
    unfold prepared. cbn [columns0 app]. now left.
Qed.

Lemma id_column_as_asked_witness :
  column (Tup "ID" (Zone 3)) (returned (preProcess three_hours 3 false)) = None
  /\ exists col i,
       column (Tup "ID" (Zone 3)) (returned (preProcess three_hours 3 true)) = Some col
       /\ nth_error (timeline three_hours) i = Some (march_1st_2024 2 eq_refl)
       /\ nth_error col i = Some (Str "a").
Proof.
  split.
  - apply (proj1 (id_column_as_asked three_hours 3 false
                    (returned (preProcess three_hours 3 false))
                    ltac:(vm_compute; reflexivity)) eq_refl).
    reflexivity.
  - apply (proj2 (id_column_as_asked three_hours 3 true
                    (returned (preProcess three_hours 3 true))
                    ltac:(vm_compute; reflexivity)) eq_refl
             (observation (march_1st_2024 2 eq_refl) (Some (inr "a")) 7 3)).
    + unfold three_hours, records. apply in_or_app. right. apply in_or_app. right.
      simpl. auto.
    + exact I.
Defined.

(** ** Missing values in the returned frame *)

Lemma fill0_not_NaN (c : cell) : fill0 c <> NaN.
Proof. destruct c; discriminate. Qed.

(** X2.  In a column of the file, for a zone of the file, the returned
    frame has NaN exactly where the file has no record: the cell at the row
    of timestamp t in the column of zone z is NaN if and only if no record
    has timestamp t and zone z (a blank field of a record is 0, not NaN). *)
Theorem nan_marks_absent_record (f : csv) (Nroll : Z) (keepID : bool) (out : frame)
        (c : string) (z : Z) (i : nat) (t : datetime) :
  outcome (preProcess f Nroll keepID) = Ok out ->
  In c (columns0 (prepared f keepID)) ->
  In z (map ZONEID (records f)) ->
  nth_error (timeline f) i = Some t ->
  exists col x,
    column (Tup c (Zone z)) out = Some col
    /\ nth_error col i = Some x
    /\ (x = NaN <-> ~ In (t, z) (keys f)).
Proof.
  intros H Hc Hz Hi.
  assert (unique_keys f) as U by (now apply preProcess_Ok in H).
  eexists _, _. split; [apply (output_data_column _ _ _ _ _ _ H Hc Hz) |].
  split; [rewrite nth_error_map, Hi; reflexivity |].
  split.
  - intros E K. apply In_keys in K as (r & Hr & <- & <-).
    rewrite cell_at_record in E by trivial. now apply fill0_not_NaN in E.
  - intros K. now apply cell_at_missing.
Qed.

Lemma nan_marks_absent_record_witness :
  exists col x,
    column (Tup "V10" (Zone 1)) (returned (preProcess zone_missing_once 3 false)) = Some col
    /\ nth_error col 1%nat = Some x
    /\ (x = NaN <-> ~ In (march_1st_2024 1 eq_refl, 1) (keys zone_missing_once)).
Proof.
  apply (nan_marks_absent_record zone_missing_once 3 false
           (returned (preProcess zone_missing_once 3 false)) "V10" 1 1%nat
           (march_1st_2024 1 eq_refl)).
  - vm_compute. reflexivity.
  - unfold prepared. cbn. auto.
  - apply zone_missing_once_zones. lia.
  - vm_compute. reflexivity.
Defined.

(** ** Zones other than 1..10 *)

(** X3.  The rolling loop runs over the zones 1..10 and nothing removes the
    other zones: for a zone of the file outside 1..10 the returned frame
    keeps the raw wind columns, as the pivot left them, and has no
    rolling-mean column. *)
Theorem other_zones_kept_unrolled (f : csv) (Nroll : Z) (keepID : bool) (out : frame)
        (q : string) (z : Z) :
  outcome (preProcess f Nroll keepID) = Ok out ->
  In q wind_quantities -> ~ 1 <= z <= 10 ->
  column (Tup (q ++ "_rm" ++ str Nroll)%string (Zone z)) out = None
  /\ (In z (map ZONEID (records f)) ->
      column (Tup q (Zone z)) out
      = Some (map (fun t => cell_at (prepared f keepID) q t z) (timeline f))).
Proof.
  intros H Hq Hz. split.
  - destruct (column (Tup (q ++ "_rm" ++ str Nroll) (Zone z)) out) as [v |] eqn:C; trivial.
    exfalso. apply column_label_in in C. rewrite (output_labels _ _ _ _ H) in C.
    apply in_map_iff in C as ([n lv] & E & Hp). injection E as -> ->.
    apply output_key_kinds in Hp as [(c & z' & E & Hc & _) | [(q' & z' & E & _ & Hz' & _) | Hp]].
    + injection E as <- _.
      apply (rm_name_fresh (str Nroll) q (q ++ "_rm" ++ str Nroll)%string Hq);
        [| reflexivity].
      now apply prepared_columns_known with f keepID.
    + injection E as _ <-. contradiction.
    + simpl in Hp. destruct Hp as [E | [E | [E | []]]]; discriminate E.
  - intros Hin. apply (output_data_column _ _ _ _ _ _ H); trivial.
    now apply wind_in_prepared.
Qed.

Lemma other_zones_kept_unrolled_witness :
  column (Tup "V100_rm3" (Zone 11)) (returned (preProcess eleven_zones 3 false)) = None
  /\ column (Tup "V100" (Zone 11)) (returned (preProcess eleven_zones 3 false))
     = Some [Num 3; NaN; NaN].
Proof.
  destruct (other_zones_kept_unrolled eleven_zones 3 false
              (returned (preProcess eleven_zones 3 false)) "V100" 11) as [A B].
  - vm_compute. reflexivity.
  - simpl. auto.
  - lia.
  - split; [exact A |]. rewrite B by (simpl; auto). vm_compute. reflexivity.
Defined.

(** ** A zone 1..10 without any record *)

Lemma foldM_app {A B} (f : A -> B -> M A) (l1 l2 : list B) (a : A) :
  foldM f (l1 ++ l2) a = bind (foldM f l1 a) (foldM f l2).
Proof.
  revert a. induction l1 as [| b l1 IH]; intros a; cbn [foldM app].
  - now rewrite bind_ret_l.
  - rewrite bind_assoc. apply bind_ext. intros a'. apply IH.
Qed.

Lemma job_source_not_written (d : string) (zs : list Z) (j : label * label) :
  In j (jobs ("_rm" ++ d) zs) -> ~ In (fst j) (map snd (jobs ("_rm" ++ d) zs)).
Proof.
  intros Hj X. apply In_jobs in Hj as (q1 & i1 & Hq1 & _ & ->).
  apply in_map_iff in X as (j & E & Hj).
  apply In_jobs in Hj as (q2 & i2 & Hq2 & _ & ->).
  cbn [job fst snd] in E. injection E as E _.
  apply (rm_name_fresh d q2 q1 Hq2); trivial.
  simpl in Hq1. simpl. intuition.
Qed.

Lemma wind_measurements_split (z0 : Z) :
  1 <= z0 <= 10 ->
  exists pre post,
    wind_measurements = pre ++ z0 :: post
    /\ forall z, In z pre -> 1 <= z < z0.
Proof.
  intros H.
  exists (filter (fun z => z <? z0) wind_measurements),
         (filter (fun z => z0 <? z) wind_measurements).
  split.
  - assert (z0 = 1 \/ z0 = 2 \/ z0 = 3 \/ z0 = 4 \/ z0 = 5 \/ z0 = 6 \/ z0 = 7
            \/ z0 = 8 \/ z0 = 9 \/ z0 = 10) as C by lia.
    destruct C as [-> | [-> | [-> | [-> | [-> | [-> | [-> | [-> | [-> | ->]]]]]]]]];
      reflexivity.
  - intros z Hz. apply filter_In in Hz as [Hz L].
    apply wind_measurements_spec in Hz. apply Z.ltb_lt in L. lia.
Qed.

(** X4.  Called with Nroll > 1 on a file without repeated entries in which
    some zone of 1..10 has no record at all, [preProcess] raises the KeyError
    of the column (U10, z0), z0 being the smallest such zone; this happens
    in the rolling loop, after the three lines were printed, and no frame is
    returned. *)
Theorem absent_zone_raises_KeyError (f : csv) (Nroll : Z) (keepID : bool) (z0 : Z) :
  unique_keys f -> 1 < Nroll -> 1 <= z0 <= 10 ->
  ~ In z0 (map ZONEID (records f)) ->
  (forall z, 1 <= z < z0 -> In z (map ZONEID (records f))) ->
  preProcess f Nroll keepID
  = ([id_line keepID; "unstacked"; rolling_line Nroll],
     Raise (KeyError (Tup "U10" (Zone z0)))).
Proof.
  intros U HN Hz0 Absent Before.
  pose proof U as U'. apply prepared_unique with (keepID := keepID) in U'.
  apply injective_projections.
  { change (printed (preProcess f Nroll keepID)
            = [id_line keepID; "unstacked"; rolling_line Nroll]).
    now rewrite preProcess_printed, U'. }
  change (outcome (preProcess f Nroll keepID) = Raise (KeyError (Tup "U10" (Zone z0)))).
  rewrite preProcess_outcome, U', rolling_stage_outcome.
  pose proof HN as G. apply gtb_1 in G. rewrite G.
  destruct (wind_measurements_split z0 Hz0) as (pre & post & -> & Hpre).
  set (df := reset_index (unstacked (prepared f keepID))).
  unfold jobs. rewrite flat_map_app. fold (jobs ("_rm" ++ str Nroll) pre).
  rewrite foldM_app, outcome_bind.
  destruct (run_jobs_total Nroll (jobs ("_rm" ++ str Nroll) pre) df) as [df' E].
  - lia.
  - intros j. apply job_source_not_written.
  - intros j Hj. apply In_jobs in Hj as (q & i & Hq & Hi & ->). cbn [job fst].
    unfold df. rewrite column_unstacked.
    + destruct (mapR_as_float_total
                  (fun t => cell_at (prepared f keepID) q t i)
                  (timepoints (prepared f keepID))) as [xs Hx].
      { intros t. now apply wind_cell_float. }
      eauto.
    + now apply wind_in_prepared.
    + apply In_zone_ids, Before. exact (Hpre i Hi).
  - rewrite E. cbn [flat_map app foldM]. rewrite outcome_bind.
    assert (column (Tup "U10" (Zone z0)) df' = None) as C.
    { rewrite (run_jobs_frame _ _ _ _ E).
      - destruct (column (Tup "U10" (Zone z0)) df) as [v |] eqn:C; trivial.
        apply column_unstacked_inv in C as [[C _] | (c & z & C & _ & Hz & _)];
          [discriminate C |].
        injection C as _ <-. apply In_zone_ids in Hz. contradiction.
      - intros X. apply in_map_iff in X as (j & C & Hj).
        apply In_jobs in Hj as (q & i & Hq & _ & ->). cbn [job snd] in C.
        injection C as C _.
        apply (rm_name_fresh (str Nroll) q "U10" Hq); [simpl; auto | exact C]. }
    unfold run_job at 1. cbn [job fst]. unfold getitem. rewrite C. reflexivity.
Qed.

Lemma absent_zone_raises_KeyError_witness :
  preProcess zone_4_absent 3 true
  = (["ID column kept"; "unstacked"; "Computing rolling means over 3 measurements"],
     Raise (KeyError (Tup "U10" (Zone 4)))).
Proof.
  apply (absent_zone_raises_KeyError zone_4_absent 3 true 4).
  - apply (prepared_unique zone_4_absent false). vm_compute. reflexivity.
  - lia.
  - lia.
  - intros X. apply in_map_iff in X as (r & E & Hr).
    apply filter_In in Hr as [_ Hr]. rewrite E in Hr. discriminate Hr.
  - intros z Hz.
    assert (z = 1 \/ z = 2 \/ z = 3) as [-> | [-> | ->]] by lia;
      vm_compute; auto.
Defined.

(** ** The two ways of renaming *)

(** X5.  On a frame returned without the ID column the training cell and
    the testing and solution cells rename alike: setting the TARGETVAR
    names apart changes nothing there, the names come out in the order of the
    columns and the flattened frames are equal. *)
Theorem train_and_test_renaming_agree (f : csv) (Nroll : Z) (out : frame) :
  outcome (preProcess f Nroll false) = Ok out ->
  rename_train (map fst out) = rename_test (map fst out)
  /\ rename_test (map fst out) = Ok (map flat_name (output_keys f Nroll false))
  /\ flatten_train out = flatten_test out.
Proof.
  intros H. pose proof (output_labels _ _ _ _ H) as L.
  assert (rename_train (map fst out) = rename_test (map fst out)) as E.
  { rewrite L, rename_test_tuples, rename_train_tuples by apply output_targets_zoned.
    now rewrite <- map_app, output_targets_first. }
  split; [exact E |]. split.
  - now rewrite L, rename_test_tuples.
  - unfold flatten_train, flatten_test. now rewrite E.
Qed.

Lemma train_and_test_renaming_agree_witness :
  flatten_train (returned (preProcess three_hours 3 false))
  = flatten_test (returned (preProcess three_hours 3 false)).
Proof.
  apply (train_and_test_renaming_agree three_hours 3
           (returned (preProcess three_hours 3 false))).
  vm_compute. reflexivity.
Defined.

(** ** The shape of the returned frame *)

Lemma NoDup_map_inj {A B} (g : A -> B) (l : list A) :
  (forall x y, g x = g y -> x = y) -> NoDup l -> NoDup (map g l).
Proof.
  intros Inj. induction 1 as [| a l Ha ND IH]; cbn [map]; constructor; trivial.
  intros X. apply in_map_iff in X as (b & E & Hb). apply Inj in E. now subst.
Qed.

Lemma NoDup_product (cs : list string) (zs : list Z) :
  NoDup cs -> NoDup zs ->
  NoDup (flat_map (fun c => map (fun z => (c, Zone z)) zs) cs).
Proof.
  intros Hc Hz. induction Hc as [| c cs Hn ND IH]; cbn [flat_map]; [constructor |].
  apply NoDup_app; trivial.
  - apply NoDup_map_inj; trivial. now intros x y [= ->].
  - intros p Hp X. apply in_map_iff in Hp as (z & <- & _).
    apply in_flat_map in X as (c' & Hc' & X).
    apply in_map_iff in X as (z' & [= -> _] & _). contradiction.
Qed.

Lemma Z_compare_opp (x y : Z) : (x ?= y) = CompOpp (y ?= x).
Proof. apply Z.compare_antisym. Qed.

Lemma Z_compare_trans (x y z : Z) :
  (x ?= y) = Lt -> (y ?= z) = Lt -> (x ?= z) = Lt.
Proof. rewrite !Z.compare_lt_iff. lia. Qed.

Lemma zone_ids_NoDup (df : frame0) : NoDup (zone_ids df).
Proof.
  apply (levels_NoDup Z.compare).
  - apply Z.compare_eq.
  - apply Z.compare_refl.
  - apply Z_compare_opp.
  - apply Z_compare_trans.
Qed.

Lemma prepared_columns_NoDup (f : csv) (keepID : bool) :
  NoDup (columns0 (prepared f keepID)).
Proof.
  unfold prepared. cbn [columns0].
  destruct keepID, (has_TARGETVAR f); cbn [app];
    repeat (constructor;
            [simpl; intros X;
             repeat (destruct X as [X | X]; [discriminate X |]); exact X |]);
    constructor.
Qed.

Lemma rolling_keys_NoDup (Nroll : Z) : NoDup (rolling_keys Nroll).
Proof.
  destruct (Z.leb_spec Nroll 1) as [H | H].
  - unfold rolling_keys. apply gtb_1_false in H. rewrite H. constructor.
  - apply (NoDup_map_inv tuple). rewrite <- jobs_keys by exact H.
    apply jobs_NoDup, wind_measurements_NoDup.
Qed.

Lemma output_keys_NoDup (f : csv) (Nroll : Z) (keepID : bool) :
  NoDup (output_keys f Nroll keepID).
Proof.
  unfold output_keys. apply NoDup_app; [| apply NoDup_app |].
  - apply NoDup_product; [apply prepared_columns_NoDup | apply zone_ids_NoDup].
  - apply rolling_keys_NoDup.
  - unfold calendar_keys. repeat (constructor;
      [simpl; intros X; repeat (destruct X as [X | X]; [discriminate X |]); exact X |]).
    constructor.
  - intros p Hp X. apply rolling_keys_spec in Hp as (q & z & _ & ->).
    simpl in X. destruct X as [X | [X | [X | []]]]; discriminate X.
  - intros p Hp X. unfold data_keys in Hp.
    apply in_flat_map in Hp as (c & Hc & Hp).
    apply in_map_iff in Hp as (z & <- & _).
    apply in_app_or in X as [X | X].
    + apply rolling_keys_spec in X as (q & z' & Hq & [= -> _]).
      apply (rm_name_fresh (str Nroll) q _ Hq
               (prepared_columns_known f keepID _ Hc) eq_refl).
    + simpl in X. destruct X as [X | [X | [X | []]]]; discriminate X.
Qed.

Lemma output_keys_length (f : csv) (Nroll : Z) (keepID : bool) :
  List.length (output_keys f Nroll keepID)
  = ((4 + (if keepID then 1 else 0) + (if has_TARGETVAR f then 1 else 0))
     * List.length (zone_ids (prepared f keepID))
     + (if Nroll >? 1 then 40 else 0) + 3)%nat.
Proof.
  unfold output_keys, data_keys. rewrite !length_app.
  assert (List.length (rolling_keys Nroll) = if Nroll >? 1 then 40%nat else 0%nat) as ->.
  { unfold rolling_keys. now destruct (Nroll >? 1). }
  cbn [calendar_keys List.length].
  set (zs := zone_ids (prepared f keepID)).
  unfold prepared. cbn [columns0].
  destruct keepID, (has_TARGETVAR f); cbn [app flat_map];
    rewrite !length_app, !length_map; cbn [List.length]; lia.
Qed.

(** X6.  A frame that [preProcess] returns, whatever the file: every column
    has one cell per distinct timestamp of the file, no two columns have the
    same label, and the columns are those of the file (U10, V10, U100, V100,
    TARGETVAR if the file has it, ID if it is kept) for each distinct zone of
    the file, the 40 rolling means when Nroll > 1, and the 3 calendar
    columns. *)
Theorem returned_frame_shape (f : csv) (Nroll : Z) (keepID : bool) (out : frame)
        (zs : list Z) :
  outcome (preProcess f Nroll keepID) = Ok out ->
  NoDup zs -> (forall z, In z zs <-> In z (map ZONEID (records f))) ->
  Forall (fun kc => List.length (snd kc) = List.length (timeline f)) out
  /\ NoDup (map fst out)
  /\ List.length out
     = ((4 + (if keepID then 1 else 0) + (if has_TARGETVAR f then 1 else 0))
        * List.length zs
        + (if Nroll >? 1 then 40 else 0) + 3)%nat.
Proof.
  intros H ND Same. pose proof (output_labels _ _ _ _ H) as L.
  split; [exact (output_lengths _ _ _ _ H) |]. split.
  - rewrite L. apply NoDup_map_inj; [| apply output_keys_NoDup].
    intros [n lv] [n' lv'] [= -> ->]. reflexivity.
  - rewrite <- (length_map fst out), L, length_map, output_keys_length.
    rewrite prepared_zone_ids.
    rewrite (levels_length Z.compare Z.compare_eq Z.compare_refl Z_compare_opp
               Z_compare_trans (map ZONEID (records f)) zs ND Same).
    reflexivity.
Qed.

Lemma returned_frame_shape_witness :
  Forall (fun kc => List.length (snd kc) = List.length (timeline zone_missing_once))
         (returned (preProcess zone_missing_once 3 true))
  /\ NoDup (map fst (returned (preProcess zone_missing_once 3 true)))
  /\ List.length (returned (preProcess zone_missing_once 3 true)) = 103%nat.
Proof.
  apply (returned_frame_shape zone_missing_once 3 true
           (returned (preProcess zone_missing_once 3 true)) wind_measurements).
  - vm_compute. reflexivity.
  - exact wind_measurements_NoDup.
  - intros z. split.
    + intros Hz. apply zone_missing_once_zones. now apply wind_measurements_spec.
    + intros Hz. vm_compute in Hz. vm_compute. tauto.
Defined.

(** ** What the calendar columns keep of the timestamp *)

Lemma days_before_month_mono (y m m' : Z) :
  1 <= m -> m < m' -> m' <= 12 ->
  Datetime.days_before_month y m + Datetime.days_in_month y m
  <= Datetime.days_before_month y m'.
Proof.
  intros H1 H2 H3.
  assert (m = 1 \/ m = 2 \/ m = 3 \/ m = 4 \/ m = 5 \/ m = 6 \/ m = 7
          \/ m = 8 \/ m = 9 \/ m = 10 \/ m = 11) as C by lia.
  assert (m' = 2 \/ m' = 3 \/ m' = 4 \/ m' = 5 \/ m' = 6 \/ m' = 7
          \/ m' = 8 \/ m' = 9 \/ m' = 10 \/ m' = 11 \/ m' = 12) as C' by lia.
  unfold Datetime.days_before_month, Datetime.days_in_month.
  destruct (Datetime.is_leap y);
    destruct C as [C | [C | [C | [C | [C | [C | [C | [C | [C | [C | C]]]]]]]]]];
    destruct C' as [C' | [C' | [C' | [C' | [C' | [C' | [C' | [C' | [C' | [C' | C']]]]]]]]]];
    subst m m'; try lia; vm_compute; discriminate.
Qed.

(** Within a year the day of the year gives back the month and the day. *)
Lemma tm_yday_inj (x y : datetime) :
  Datetime.year x = Datetime.year y ->
  Datetime.tm_yday x = Datetime.tm_yday y ->
  Datetime.month x = Datetime.month y /\ Datetime.day x = Datetime.day y.
Proof.
  intros Ey Ed. unfold Datetime.tm_yday in Ed. rewrite <- Ey in Ed.
  pose proof (DatetimeFacts.month_range x) as Mx.
  pose proof (DatetimeFacts.month_range y) as My.
  pose proof (DatetimeFacts.day_range x) as Dx.
  pose proof (DatetimeFacts.day_range y) as Dy. rewrite <- Ey in Dy.
  destruct (Z.lt_trichotomy (Datetime.month x) (Datetime.month y)) as [L | [E | L]].
  - pose proof (days_before_month_mono (Datetime.year x) _ _ (proj1 Mx) L (proj2 My)).
    lia.
  - split; trivial. rewrite E in Ed. lia.
  - pose proof (days_before_month_mono (Datetime.year x) _ _ (proj1 My) L (proj2 Mx)).
    lia.
Qed.

Lemma calendar_identifies (x y : datetime) :
  Datetime.year x = Datetime.year y ->
  Datetime.tm_yday x = Datetime.tm_yday y ->
  Datetime.hour x = Datetime.hour y ->
  Datetime.minute x = Datetime.minute y ->
  x = y.
Proof.
  intros Ey Ed Eh Em. destruct (tm_yday_inj x y Ey Ed) as [E1 E2].
  apply DatetimeFacts.fields_inj. unfold Datetime.fields. congruence.
Qed.

(** X7.  Dropping TIMESTAMP for YEAR, DAYOFYEAR and HOUR loses the minutes
    and nothing else: when all the timestamps of the file are on the hour
    (minute 0), two different rows of the returned frame never have the same
    YEAR, DAYOFYEAR and HOUR. *)
Theorem calendar_rows_distinct (f : csv) (Nroll : Z) (keepID : bool) (out : frame)
        (Y D H : list cell) (i j : nat) :
  outcome (preProcess f Nroll keepID) = Ok out ->
  (forall r, In r (records f) -> Datetime.minute (TIMESTAMP r) = 0) ->
  column (Tup "YEAR" Blank) out = Some Y ->
  column (Tup "DAYOFYEAR" Blank) out = Some D ->
  column (Tup "HOUR" Blank) out = Some H ->
  (i < List.length (timeline f))%nat -> (j < List.length (timeline f))%nat ->
  i <> j ->
  ~ (nth_error Y i = nth_error Y j
     /\ nth_error D i = nth_error D j
     /\ nth_error H i = nth_error H j).
Proof.
  intros R Min HY HD HH Hi Hj Ne (EY & ED & EH).
  apply preProcess_Ok in R as (_ & df2 & _ & ->).
  rewrite column_with_calendar in HY, HD, HH. cbn in HY, HD, HH.
  injection HY as <-. injection HD as <-. injection HH as <-.
  unfold attr_column in *. rewrite !nth_error_map in *.
  destruct (nth_error (timeline f) i) as [x |] eqn:Ex;
    [| apply nth_error_None in Ex; lia].
  destruct (nth_error (timeline f) j) as [y |] eqn:Ey;
    [| apply nth_error_None in Ey; lia].
  cbn [option_map] in *.
  injection EY as EY. injection ED as ED. injection EH as EH.
  assert (x = y) as E.
  { apply calendar_identifies; trivial.
    assert (forall t, In t (timeline f) -> Datetime.minute t = 0) as M.
    { intros t Ht. apply In_timeline, in_map_iff in Ht as (r & <- & Hr). auto. }
    rewrite (M x), (M y); trivial; eapply nth_error_In; eassumption. }
  subst y. apply Ne.
  apply (proj1 (NoDup_nth_error (timeline f)) (timeline_NoDup f)); trivial.
  now rewrite Ex, Ey.
Qed.

Lemma calendar_rows_distinct_witness :
  ~ (nth_error [Num 2024; Num 2024; Num 2024] 0 = nth_error [Num 2024; Num 2024; Num 2024] 1
     /\ nth_error [Num 61; Num 61; Num 61] 0 = nth_error [Num 61; Num 61; Num 61] 1
     /\ nth_error [Num 0; Num 1; Num 2] 0 = nth_error [Num 0; Num 1; Num 2] 1).
Proof.
  apply (calendar_rows_distinct three_hours 3 false
           (returned (preProcess three_hours 3 false))
           [Num 2024; Num 2024; Num 2024] [Num 61; Num 61; Num 61]
           [Num 0; Num 1; Num 2] 0%nat 1%nat).
  - vm_compute. reflexivity.
  - intros r Hr. unfold three_hours, records in Hr.
    repeat (apply in_app_or in Hr as [Hr | Hr]);
      apply in_map_iff in Hr as (z & <- & _); reflexivity.
  - vm_compute. reflexivity.
  - vm_compute. reflexivity.
  - vm_compute. reflexivity.
  - vm_compute. lia.
  - vm_compute. lia.
  - discriminate.
Defined.

(** ** The order of the records in the file *)

Section SortedLevels.
Context {A : Type} (cmp : A -> A -> comparison).
Hypothesis cmp_eq : forall x y, cmp x y = Eq -> x = y.
Hypothesis cmp_refl : forall x, cmp x x = Eq.
Hypothesis cmp_opp : forall x y, cmp x y = CompOpp (cmp y x).
Hypothesis cmp_trans : forall x y z, cmp x y = Lt -> cmp y z = Lt -> cmp x z = Lt.

Lemma before_irrefl (x : A) : ~ before cmp x x.
Proof. unfold before. rewrite cmp_refl. discriminate. Qed.

(** Two strictly ascending lists with the same members are the same list. *)
Lemma sorted_same_members (l1 l2 : list A) :
  StronglySorted (before cmp) l1 -> StronglySorted (before cmp) l2 ->
  (forall x, In x l1 <-> In x l2) -> l1 = l2.
Proof.
  intros S1. revert l2. induction S1 as [| x l1 S1 IH F1]; intros l2 S2 Same.
  - destruct l2 as [| y l2]; trivial. destruct (proj2 (Same y)). now left.
  - destruct S2 as [| y l2 S2 F2].
    { destruct (proj1 (Same x)). now left. }
    rewrite Forall_forall in F1, F2.
    assert (x = y) as ->.
    { destruct (proj1 (Same x) (or_introl eq_refl)) as [E | Hx]; [now symmetry |].
      destruct (proj2 (Same y) (or_introl eq_refl)) as [E | Hy]; trivial.
      exfalso. apply (before_irrefl x).
      apply cmp_trans with y; [now apply F1 | now apply F2]. }
    f_equal. apply IH; trivial. intros z. split; intros Hz.
    + destruct (proj1 (Same z) (or_intror Hz)) as [<- | ?]; trivial.
      exfalso. apply (before_irrefl y). now apply F1.
    + destruct (proj2 (Same z) (or_intror Hz)) as [<- | ?]; trivial.
      exfalso. apply (before_irrefl y). now apply F2.
Qed.

Lemma levels_same_members (l l' : list A) :
  (forall x, In x l <-> In x l') -> levels cmp l = levels cmp l'.
Proof.
  intros Same. apply sorted_same_members.
  - now apply levels_sorted.
  - now apply levels_sorted.
  - intros x. rewrite !(In_levels cmp cmp_eq). apply Same.
Qed.
End SortedLevels.

Lemma find_permuted (rs rs' : list row0) (t : datetime) (z : Z) :
  Permutation rs rs' ->
  NoDup (map (fun r => (stamp r, zone r)) rs) ->
  find (same_key t z) rs = find (same_key t z) rs'.
Proof.
  intros P ND.
  assert (NoDup (map (fun r => (stamp r, zone r)) rs')) as ND'.
  { eapply Permutation_NoDup; [| exact ND]. now apply Permutation_map. }
  destruct (find (same_key t z) rs) as [r |] eqn:E.
  - apply find_some in E as [Hr K]. apply same_key_eq in K. injection K as -> ->.
    symmetry. apply find_unique; trivial. now apply (Permutation_in _ P).
  - symmetry. apply find_absent. intros X.
    apply in_map_iff in X as (r & K & Hr).
    apply (Permutation_in _ (Permutation_sym P)) in Hr.
    apply (find_none _ _ E) in Hr.
    assert (same_key t z r = true) by (apply same_key_eq; now symmetry).
    congruence.
Qed.

Lemma has_duplicates_permuted (rs rs' : list row0) :
  Permutation rs rs' -> has_duplicates rs = has_duplicates rs'.
Proof.
  intros P.
  assert (forall a b, Permutation a b ->
            has_duplicates a = false -> has_duplicates b = false) as G.
  { intros a b Pab H. apply has_duplicates_NoDup. apply has_duplicates_NoDup in H.
    eapply Permutation_NoDup; [| exact H]. now apply Permutation_map. }
  destruct (has_duplicates rs) eqn:E, (has_duplicates rs') eqn:E'; trivial.
  - apply (G _ _ (Permutation_sym P)) in E'. congruence.
  - apply (G _ _ P) in E. congruence.
Qed.

(** X9.  The order of the records in the file does not matter: two files
    with the same columns whose records are the same up to their order make
    [preProcess] print the same lines and return the same frame, or raise the
    same exception. *)
Theorem record_order_irrelevant (f f' : csv) (Nroll : Z) (keepID : bool) :
  has_TARGETVAR f = has_TARGETVAR f' ->
  Permutation (records f) (records f') ->
  preProcess f Nroll keepID = preProcess f' Nroll keepID.
Proof.
  intros T P. rewrite !preProcess_stages.
  assert (Permutation (rows0 (prepared f keepID)) (rows0 (prepared f' keepID))) as PR.
  { unfold prepared. cbn [rows0 fillna0 read_csv]. now repeat apply Permutation_map. }
  assert (unstack (prepared f keepID) = unstack (prepared f' keepID)) as ->;
    [| reflexivity].
  rewrite !unstack_unstacked, <- (has_duplicates_permuted _ _ PR).
  destruct (has_duplicates (rows0 (prepared f keepID))) eqn:D; trivial.
  apply has_duplicates_NoDup in D. f_equal.
  assert (forall x : datetime, In x (map stamp (rows0 (prepared f keepID)))
                               <-> In x (map stamp (rows0 (prepared f' keepID)))) as ST.
  { intros x. split; apply Permutation_in;
      [| apply Permutation_sym]; now apply Permutation_map. }
  assert (forall x : Z, In x (map zone (rows0 (prepared f keepID)))
                        <-> In x (map zone (rows0 (prepared f' keepID)))) as SZ.
  { intros x. split; apply Permutation_in;
      [| apply Permutation_sym]; now apply Permutation_map. }
  assert (timepoints (prepared f keepID) = timepoints (prepared f' keepID)) as ET.
  { apply levels_same_members; trivial.
    - apply DatetimeFacts.compare_eq.
    - apply DatetimeFacts.compare_refl.
    - apply DatetimeFacts.compare_opp.
    - apply DatetimeFacts.compare_trans. }
  assert (zone_ids (prepared f keepID) = zone_ids (prepared f' keepID)) as EZ.
  { apply levels_same_members; trivial.
    - apply Z.compare_eq.
    - apply Z.compare_refl.
    - apply Z_compare_opp.
    - apply Z_compare_trans. }
  assert (columns0 (prepared f keepID) = columns0 (prepared f' keepID)) as EC.
  { unfold prepared. cbn [columns0]. now rewrite T. }
  unfold unstacked. rewrite ET, EZ, EC. f_equal.
  apply flat_map_ext. intros c. apply map_ext. intros z. f_equal.
  apply map_ext. intros t. unfold cell_at.
  now rewrite (find_permuted _ _ t z PR D).
Qed.

Lemma record_order_irrelevant_witness :
  preProcess three_hours 3 true = preProcess three_hours_reversed 3 true.
Proof.
  apply (record_order_irrelevant three_hours three_hours_reversed 3 true).
  - reflexivity.
  - apply Permutation_rev.
Defined.

(** ** Flat names are told apart *)

Lemma has_char_app (a : ascii) (s s' : string) :
  has_char a (s ++ s') = has_char a s || has_char a s'.
Proof.
  induction s as [| c s IH]; [reflexivity |].
  cbn [String.append has_char]. rewrite IH. apply orb_assoc.
Qed.

Lemma uint_no_underscore (d : Decimal.uint) :
  has_char "_" (NilEmpty.string_of_uint d) = false.
Proof. induction d; cbn [NilEmpty.string_of_uint has_char]; trivial. Qed.

Lemma str_no_underscore (n : Z) : has_char "_" (str n) = false.
Proof.
  unfold str, NilZero.string_of_int, NilZero.string_of_uint.
  destruct (Z.to_int n) as [d | d].
  - destruct d; trivial; apply uint_no_underscore.
  - cbn [has_char Ascii.eqb Bool.eqb orb].
    destruct d; trivial; apply uint_no_underscore.
Qed.

Lemma to_int_not_nil (n : Z) :
  Z.to_int n <> Decimal.Pos Decimal.Nil /\ Z.to_int n <> Decimal.Neg Decimal.Nil.
Proof.
  pose proof (DecimalZ.to_of (Z.to_int n)) as H. rewrite DecimalZ.of_to in H.
  split; intros E; rewrite E in H; discriminate H.
Qed.

Lemma str_inj (n n' : Z) : str n = str n' -> n = n'.
Proof.
  unfold str. intros E. apply DecimalZ.to_int_inj.
  destruct (to_int_not_nil n) as [A B]. destruct (to_int_not_nil n') as [A' B'].
  pose proof (NilZero.isi _ A B) as I. pose proof (NilZero.isi _ A' B') as I'.
  rewrite E in I. rewrite I in I'. now injection I'.
Qed.

(** A name and a suffix without underscore are read back from their
    join. *)
Lemma join_inj (a a' s s' : string) :
  has_char "_" s = false -> has_char "_" s' = false ->
  (a ++ "_" ++ s)%string = (a' ++ "_" ++ s')%string -> a = a' /\ s = s'.
Proof.
  intros H H'. revert a'. induction a as [| c a IH]; intros [| c' a'] E;
    cbn [String.append] in E.
  - injection E as E. now split.
  - injection E as _ E. rewrite E, has_char_app in H.
    cbn [String.append has_char Ascii.eqb Bool.eqb] in H.
    rewrite orb_true_r in H. discriminate H.
  - injection E as _ E. rewrite <- E, has_char_app in H'.
    cbn [String.append has_char Ascii.eqb Bool.eqb] in H'.
    rewrite orb_true_r in H'. discriminate H'.
  - injection E as -> E. destruct (IH a' E) as [-> ->]. now split.
Qed.

Lemma flat_name_inj (p p' : string * level) :
  (snd p = Blank -> has_char "_" (fst p) = false) ->
  (snd p' = Blank -> has_char "_" (fst p') = false) ->
  flat_name p = flat_name p' -> p = p'.
Proof.
  destruct p as [n [z |]], p' as [n' [z' |]]; unfold flat_name; cbn [fst snd];
    intros B B' E.
  - destruct (join_inj n n' (str z) (str z')) as [-> Ez]; trivial;
      try apply str_no_underscore.
    apply str_inj in Ez. now subst.
  - specialize (B' eq_refl). rewrite <- E, has_char_app in B'.
    cbn [String.append has_char Ascii.eqb Bool.eqb] in B'.
    rewrite orb_true_r in B'. discriminate B'.
  - specialize (B eq_refl). rewrite E, has_char_app in B.
    cbn [String.append has_char Ascii.eqb Bool.eqb] in B.
    rewrite orb_true_r in B. discriminate B.
  - now subst.
Qed.

Lemma output_blank_keys (f : csv) (Nroll : Z) (keepID : bool) (p : string * level) :
  In p (output_keys f Nroll keepID) -> snd p = Blank -> has_char "_" (fst p) = false.
Proof.
  intros H B.
  apply output_key_kinds in H as [(c & z & -> & _) | [(q & z & -> & _) | H]];
    try discriminate B.
  simpl in H. destruct H as [<- | [<- | [<- | []]]]; reflexivity.
Qed.

Lemma NoDup_map_inj_in {A B} (g : A -> B) (l : list A) :
  (forall x y, In x l -> In y l -> g x = g y -> x = y) ->
  NoDup l -> NoDup (map g l).
Proof.
  intros Inj ND. induction ND as [| a l Ha ND IH]; cbn [map]; constructor.
  - intros X. apply in_map_iff in X as (b & E & Hb).
    apply Inj in E; [subst; contradiction | now right | now left].
  - apply IH. intros x y Hx Hy. apply Inj; now right.
Qed.

Lemma column_relabel (g : label -> label) (df : frame) (k : label) :
  (forall k', In k' (map fst df) -> g k' = g k -> k' = k) ->
  column (g k) (map (fun kc => (g (fst kc), snd kc)) df) = column k df.
Proof.
  induction df as [| [k' v] df IH]; intros Inj; [reflexivity |].
  cbn [map column fst snd].
  destruct (label_eqb k k') eqn:E.
  - apply label_eqb_eq in E. subst. now rewrite label_eqb_refl.
  - destruct (label_eqb (g k) (g k')) eqn:E'.
    + apply label_eqb_eq in E'. symmetry in E'.
      apply Inj in E'; [| now left]. subst. rewrite label_eqb_refl in E. discriminate E.
    + apply IH. intros k'' H. apply Inj. now right.
Qed.

Lemma set_columns_relabel (g : label -> string) (df : frame) :
  set_columns (map g (map fst df)) df
  = Ok (map (fun kc => (Flat (g (fst kc)), snd kc)) df).
Proof.
  unfold set_columns. rewrite !length_map, Nat.eqb_refl. f_equal.
  induction df as [| [k v] df IH]; [reflexivity |].
  cbn [map combine fst snd]. now rewrite IH.
Qed.

(** X10.  Flattening loses no column: the frame [preProcess] returns is
    always renamed without an exception, the flat names are pairwise
    different, and looking a column up by the flat name of its key gives
    the cells of the hierarchical column. *)
Theorem flattening_keeps_columns (f : csv) (Nroll : Z) (keepID : bool) (out : frame) :
  outcome (preProcess f Nroll keepID) = Ok out ->
  exists flat,
    flatten_test out = Ok flat
    /\ NoDup (map fst flat)
    /\ List.length flat = List.length out
    /\ forall p, In p (output_keys f Nroll keepID) ->
         column (Flat (flat_name p)) flat = column (tuple p) out.
Proof.
  intros H. pose proof (output_labels _ _ _ _ H) as L.
  assert (map label_flat_name (map fst out) = map flat_name (output_keys f Nroll keepID)) as N.
  { rewrite L, map_map. apply map_ext. now intros [n lv]. }
  assert (flatten_test out
          = Ok (map (fun kc => (Flat (label_flat_name (fst kc)), snd kc)) out)) as E.
  { unfold flatten_test. rewrite L, rename_test_tuples. cbn [bindR].
    rewrite <- N. apply set_columns_relabel. }
  assert (forall p p', In p (output_keys f Nroll keepID) ->
                       In p' (output_keys f Nroll keepID) ->
                       flat_name p = flat_name p' -> p = p') as Inj.
  { intros p p' Hp Hp'. apply flat_name_inj; now apply output_blank_keys with f Nroll keepID. }
  eexists. split; [exact E |]. split; [| split].
  - rewrite map_map. cbn [fst].
    rewrite <- (map_map (fun kc => label_flat_name (fst kc)) Flat).
    rewrite <- (map_map fst label_flat_name), N.
    apply NoDup_map_inj; [now intros x y [= ->] |].
    apply NoDup_map_inj_in; [exact Inj | apply output_keys_NoDup].
  - apply length_map.
  - intros p Hp.
    change (Flat (flat_name p))
      with ((fun k => Flat (label_flat_name k)) (tuple p)).
    apply (column_relabel (fun k => Flat (label_flat_name k))).
    intros k' Hk' E'. rewrite L in Hk'. apply in_map_iff in Hk' as (p' & <- & Hp').
    injection E' as E'. f_equal.
    apply Inj; trivial.
Qed.

Lemma flattening_keeps_columns_witness :
  exists flat,
    flatten_test (returned (preProcess three_hours 3 false)) = Ok flat
    /\ NoDup (map fst flat)
    /\ List.length flat = List.length (returned (preProcess three_hours 3 false))
    /\ forall p, In p (output_keys three_hours 3 false) ->
         column (Flat (flat_name p)) flat
         = column (tuple p) (returned (preProcess three_hours 3 false)).
Proof.
  apply (flattening_keeps_columns three_hours 3 false
           (returned (preProcess three_hours 3 false))).
  vm_compute. reflexivity.
Defined.

(** ** The cells *)

Lemma try_except_write (r : result unit) (saved failed : string) :
  try_except (lift r ;; print saved) (print failed) = ([report r saved failed], Ok tt).
Proof. destruct r as [[] | e]; reflexivity. Qed.

Lemma flat_names_of_output (f : csv) (Nroll : Z) (keepID : bool) (out : frame) :
  outcome (preProcess f Nroll keepID) = Ok out ->
  map flat_name (output_keys f Nroll keepID) = map label_flat_name (map fst out).
Proof.
  intros H. rewrite (output_labels _ _ _ _ H), map_map.
  apply map_ext. now intros [n lv].
Qed.

(** The steps of the testing and solution cells on a returned frame. *)
Lemma test_rename_steps (f : csv) (Nroll : Z) (keepID : bool) (out : frame) :
  outcome (preProcess f Nroll keepID) = Ok out ->
  exists P P',
    joined (fun _ => true) (map fst out) = Ok P
    /\ mapR strip_sep P = Ok P'
    /\ set_columns P' out = Ok (flattened out).
Proof.
  intros H. pose proof (output_labels _ _ _ _ H) as L.
  eexists _, _. rewrite L, joined_tuples.
  split; [reflexivity |]. rewrite strip_joined. split; [reflexivity |].
  rewrite filter_keeps_all by reflexivity.
  rewrite (flat_names_of_output _ _ _ _ H). apply set_columns_relabel.
Qed.

(** The steps of the training cell on a frame returned without the ID
    column. *)
Lemma train_rename_steps (f : csv) (Nroll : Z) (out : frame) :
  outcome (preProcess f Nroll false) = Ok out ->
  exists P P' T,
    joined (fun n => negb (String.eqb n "TARGETVAR")) (map fst out) = Ok P
    /\ mapR strip_sep P = Ok P'
    /\ joined (fun n => String.eqb n "TARGETVAR") (map fst out) = Ok T
    /\ set_columns (T ++ P') out = Ok (flattened out).
Proof.
  intros H. pose proof (output_labels _ _ _ _ H) as L.
  eexists _, _, _. rewrite L, !joined_tuples.
  split; [reflexivity |]. rewrite strip_joined. split; [reflexivity |].
  split; [reflexivity |].
  change (fun p : string * level => String.eqb (fst p) "TARGETVAR") with is_target.
  rewrite joined_flat_targets by apply output_targets_zoned.
  rewrite <- map_app.
  change (fun p : string * level => negb (String.eqb (fst p) "TARGETVAR"))
    with (fun p => negb (is_target p)).
  rewrite output_targets_first, (flat_names_of_output _ _ _ _ H).
  apply set_columns_relabel.
Qed.

Lemma bind_Ok {A B} (lines : list string) (a : A) (k : A -> M B) :
  bind (lines, Ok a) k = (lines ++ printed (k a), outcome (k a)).
Proof. cbn. now destruct (k a). Qed.

(** X11.  The cells that write a Feather file.  An exception of
    [preProcess] is not caught: the cell stops with it, having printed what
    [preProcess] printed and written nothing.  When [preProcess] returns, the
    renaming never raises, the frame handed to the writer is the returned
    frame with each label replaced by its flat name, and an exception of
    the writer is caught: the cell ends normally, its last line saying
    whether the file was saved. *)
Theorem feather_cells (now : string) (head : frame -> string)
        (write_dataframe : frame -> string -> result unit) (f : csv) :
  cell_train_feather now head write_dataframe f
  = match preProcess f 3 false with
    | (lines, Raise e) => (lines, Raise e)
    | (lines, Ok out) =>
        (lines ++ [(newline ++ "Dataframe train_df:" ++ newline ++ head (flattened out))%string;
                   report (write_dataframe (flattened out) ("data/Train_pp_" ++ now ++ ".feather")%string)
                     (newline ++ "Training data frame saved to "
                      ++ "data/Train_pp_" ++ now ++ ".feather")%string
                     (newline ++ "Error saving training data frame to "
                      ++ "data/Train_pp_" ++ now ++ ".feather")%string],
         Ok tt)
    end
  /\ cell_test_feather now head write_dataframe f
     = match preProcess f 3 true with
       | (lines, Raise e) => (lines, Raise e)
       | (lines, Ok out) =>
           (lines ++ [(newline ++ "Dataframe test_df:" ++ newline ++ head (flattened out))%string;
                      report (write_dataframe (flattened out) ("data/Test_pp_" ++ now ++ ".feather")%string)
                        (newline ++ "Testing data frame saved to "
                         ++ "data/Test_pp_" ++ now ++ ".feather")%string
                        (newline ++ "Error saving testing data frame to "
                         ++ "data/Test_pp_" ++ now ++ ".feather")%string],
            Ok tt)
       end.
Proof.
  split.
  - unfold cell_train_feather.
    destruct (preProcess f 3 false) as [lines [out | e]] eqn:E; [| reflexivity].
    assert (outcome (preProcess f 3 false) = Ok out) as H by now rewrite E.
    rewrite bind_Ok. cbv beta.
    destruct (train_rename_steps f 3 out H) as (P & P' & T & -> & E1 & -> & E2).
    rewrite !lift_Ok, !bind_ret_l, E1, lift_Ok, !bind_ret_l, E2, lift_Ok, bind_ret_l.
    cbv zeta. rewrite try_except_write. reflexivity.
  - unfold cell_test_feather.
    destruct (preProcess f 3 true) as [lines [out | e]] eqn:E; [| reflexivity].
    assert (outcome (preProcess f 3 true) = Ok out) as H by now rewrite E.
    rewrite bind_Ok. cbv beta.
    destruct (test_rename_steps f 3 true out H) as (P & P' & -> & E1 & E2).
    rewrite lift_Ok, bind_ret_l, E1, lift_Ok, bind_ret_l, E2, lift_Ok, bind_ret_l.
    cbv zeta. rewrite try_except_write. reflexivity.
Qed.

(** X12.  The solution cell.  An exception of [preProcess] stops the cell
    before anything is written.  When [preProcess] returns, the pickle
    writer gets the hierarchical frame and the Feather writer the flattened
    one, under file names with the same time stamp; an exception of either
    writer is caught and reported, so a failed pickle does not keep the
    Feather file from being written, and the cell always ends normally. *)
Theorem solution_cell (now : string) (head : frame -> string)
        (to_pickle write_dataframe : frame -> string -> result unit) (f : csv) :
  cell_solution now head to_pickle write_dataframe f
  = match preProcess f 3 false with
    | (lines, Raise e) => (lines, Raise e)
    | (lines, Ok out) =>
        (lines
         ++ [(newline ++ "Dataframe solution_df for pickle:" ++ newline ++ head out)%string;
             report (to_pickle out ("data/Solution_pp_" ++ now ++ ".pkl")%string)
               (newline ++ "Solution data frame saved to "
                ++ "data/Solution_pp_" ++ now ++ ".pkl")%string
               (newline ++ "Error saving solution data frame to "
                ++ "data/Solution_pp_" ++ now ++ ".pkl")%string;
             (newline ++ "Dataframe solution_df for feather:" ++ newline
              ++ head (flattened out))%string;
             report (write_dataframe (flattened out) ("data/Solution_pp_" ++ now ++ ".feather")%string)
               (newline ++ "Solution data frame saved to "
                ++ "data/Solution_pp_" ++ now ++ ".feather")%string
               (newline ++ "Error saving solution data frame to "
                ++ "data/Solution_pp_" ++ now ++ ".feather")%string],
         Ok tt)
    end.
Proof.
  unfold cell_solution.
  destruct (preProcess f 3 false) as [lines [out | e]] eqn:E; [| reflexivity].
  assert (outcome (preProcess f 3 false) = Ok out) as H by now rewrite E.
  rewrite bind_Ok. cbv beta zeta.
  destruct (test_rename_steps f 3 false out H) as (P & P' & -> & E1 & E2).
  rewrite !try_except_write.
  rewrite lift_Ok, bind_ret_l, E1, lift_Ok, bind_ret_l, E2, lift_Ok, bind_ret_l.
  rewrite try_except_write. reflexivity.
Qed.
